(** * ProductVariantInventoryService: inventory reservation and allocation

    A shallow embedding of
    [packages/medusa/src/services/product-variant-inventory.ts] and the
    properties of its operations: the variant/inventory-item link table,
    the availability check, the reservation manager and the location stock
    validator, in both consistency modes (with and without an injected
    inventory service). *)

From Stdlib Require Import ZArith Lia Bool Sorted.
From stdpp Require Import gmap strings list fin_maps.

Local Open Scope string_scope.
Local Open Scope list_scope.
Local Open Scope Z_scope.

(** ** Errors and results *)

(** [MedusaError.Types] as used by the service. *)
Inductive MedusaErrorType : Type :=
| NOT_FOUND
| INVALID_DATA
| NOT_ALLOWED.

(** A rejected promise carries either a [MedusaError] or a runtime
    [TypeError] (property access on [undefined]). When several promises
    given to [Promise.all] reject, the call rejects with the rejection
    that settles first, which the order of the array does not decide:
    [OneOf e1 e2] stands for that rejection, one of [e1] and [e2]. *)
Inductive Error : Type :=
| MedusaError (type : MedusaErrorType) (message : string)
| TypeError (message : string)
| OneOf (e1 e2 : Error).

Inductive Result (A : Type) : Type :=
| Ok (a : A)
| Err (e : Error).
Arguments Ok {A} a.
Arguments Err {A} e.

Definition is_ok {A} (r : Result A) : bool :=
  match r with Ok _ => true | Err _ => false end.

(** The names the specification gives to the errors the service throws. *)
Definition InvalidQuantity : Error :=
  MedusaError INVALID_DATA "Quantity must be greater than 0".
(** The one error [reserveQuantity] throws itself; the specification
    calls it [LocationRequired], and [NoLocationForChannel] where it
    describes the resolution of a sales channel. *)
Definition LocationRequired : Error :=
  MedusaError INVALID_DATA
    "Must provide location_id or sales_channel_id to a Sales Channel that has associated Stock Locations".
Definition InsufficientStock (title : string) : Error :=
  MedusaError NOT_ALLOWED ("Insufficient stock for item: " +:+ title).

(** ** Data model

    Identifiers are strings. Quantities are JavaScript numbers that hold
    integers (integer columns and counts); they are modelled as [Z]. The
    product that [reserveQuantity] requests from the ledger is rounded as
    the double it is, see [js_times]. *)

(** The double nearest to an integer, ties to even: integers up to [2^53]
    in magnitude are doubles; beyond, 53 significant bits are kept. (The
    doubles end near [2^1024]; quantities do not come close.) *)
Definition round_to_double (z : Z) : Z :=
  let a := Z.abs z in
  if a <=? 2 ^ 53 then z
  else
    let e := Z.log2 a - 52 in
    let q := Z.shiftr a e in
    let r := a - Z.shiftl q e in
    let half := 2 ^ (e - 1) in
    let q' :=
      if r <? half then q
      else if half <? r then q + 1
      else if Z.even q then q else q + 1 in
    Z.sgn z * Z.shiftl q' e.

(** [a * b] on JavaScript numbers that hold integers. *)
Definition js_times (a b : Z) : Z := round_to_double (a * b).

(** The fields of a product variant the service selects; the variant id is
    the key under which the variant store holds the record. *)
Record ProductVariant : Type := {
  allow_backorder : bool;
  manage_inventory : bool;
  inventory_quantity : Z
}.

(** A row of the link table: one unit of [variant_id] consumes [quantity]
    units of [inventory_item_id]. The projections carry the prefix [pvi_]. *)
Record ProductVariantInventoryItem : Type := {
  pvi_variant_id : string;
  pvi_inventory_item_id : string;
  pvi_quantity : Z
}.

Record ReservationItemDTO : Type := {
  res_id : string;
  res_line_item_id : option string;
  res_inventory_item_id : string;
  res_location_id : string;
  res_quantity : Z;
  res_created_at : Z
}.

(** The argument of [createReservationItem]. [location_id] is an option:
    the service passes [locationId as string], which is [undefined] at run
    time when no location was resolved. *)
Record CreateReservationItemInput : Type := {
  cri_type : string;
  cri_line_item_id : option string;
  cri_location_id : option string;
  cri_inventory_item_id : string;
  cri_quantity : Z
}.

Record InventoryLevelDTO : Type := {
  lvl_inventory_item_id : string;
  lvl_location_id : string;
  lvl_stocked_quantity : Z
}.

Record LineItem : Type := {
  li_title : string;
  li_variant_id : option string;
  li_quantity : Z
}.

Record ReserveQuantityContext : Type := {
  locationId : option string;
  lineItemId : option string;
  salesChannelId : option string
}.

(** JavaScript truthiness of a possibly absent string: [undefined], [null]
    and the empty string are falsy. *)
Definition truthy (o : option string) : bool :=
  match o with
  | Some s => negb (String.eqb s "")
  | None => false
  end.

(** [isDefined] of medusa-core-utils. *)
Definition isDefined {A} (o : option A) : bool :=
  match o with Some _ => true | None => false end.

(** ** Collaborators *)

(** [IInventoryService], the inventory ledger, over a ledger state [L].
    Reads are functions of the ledger state that may reject; writes also
    return the new ledger state. The ledger's own [confirmInventory] is
    [ledgerConfirmInventory] here, the name being taken by the method of
    the service. [listReservationItems] takes the [line_item_id] of the
    selector and is asked for [order: { created_at: "DESC" }];
    [listInventoryLevels] takes the [inventory_item_id] list and the
    [location_id] of the selector. Both return the rows and a count. *)
Record IInventoryService (L : Type) : Type := {
  retrieveInventoryItem : string -> L -> Result unit;
  ledgerConfirmInventory : string -> list string -> Z -> L -> Result bool;
  listReservationItems :
    string -> L -> Result (list ReservationItemDTO * nat);
  listInventoryLevels :
    list string -> string -> L -> Result (list InventoryLevelDTO * nat);
  createReservationItem :
    CreateReservationItemInput -> L -> Result ReservationItemDTO * L;
  updateReservationItem : string -> Z -> L -> Result unit * L;
  deleteReservationItem : string -> L -> Result unit * L;
  deleteReservationItemsByLineItem : string -> L -> Result unit * L
}.
Arguments retrieveInventoryItem {L} _ _ _.
Arguments ledgerConfirmInventory {L} _ _ _ _ _.
Arguments listReservationItems {L} _ _ _.
Arguments listInventoryLevels {L} _ _ _ _.
Arguments createReservationItem {L} _ _ _.
Arguments updateReservationItem {L} _ _ _ _.
Arguments deleteReservationItem {L} _ _ _.
Arguments deleteReservationItemsByLineItem {L} _ _ _.

(** Everything the service reads and writes: the variant store behind
    [productVariantService_], the [ProductVariantInventoryItem] repository of
    the entity manager, the sales channel locations, the stock locations and
    the state of the inventory ledger. *)
Record World (L : Type) : Type := {
  product_variants : gmap string ProductVariant;
  variant_inventory : list ProductVariantInventoryItem;
  sales_channel_locations : gmap string (list string);
  stock_locations : list string;
  ledger : L
}.
Arguments product_variants {L} _.
Arguments variant_inventory {L} _.
Arguments sales_channel_locations {L} _.
Arguments stock_locations {L} _.
Arguments ledger {L} _.

Definition set_product_variants {L} (w : World L)
    (vs : gmap string ProductVariant) : World L :=
  {| product_variants := vs;
     variant_inventory := variant_inventory w;
     sales_channel_locations := sales_channel_locations w;
     stock_locations := stock_locations w;
     ledger := ledger w |}.

Definition set_variant_inventory {L} (w : World L)
    (ls : list ProductVariantInventoryItem) : World L :=
  {| product_variants := product_variants w;
     variant_inventory := ls;
     sales_channel_locations := sales_channel_locations w;
     stock_locations := stock_locations w;
     ledger := ledger w |}.

Definition set_ledger {L} (w : World L) (l : L) : World L :=
  {| product_variants := product_variants w;
     variant_inventory := variant_inventory w;
     sales_channel_locations := sales_channel_locations w;
     stock_locations := stock_locations w;
     ledger := l |}.

(** ** The monad of asynchronous service code

    A promise-returning method is a function from the world to its outcome
    and the world it leaves behind. *)
Definition M (L A : Type) : Type := World L -> Result A * World L.

Definition ret {L A} (a : A) : M L A := fun w => (Ok a, w).

Definition throw {L A} (e : Error) : M L A := fun w => (Err e, w).

Definition bind {L A B} (m : M L A) (k : A -> M L B) : M L B :=
  fun w =>
    match m w with
    | (Ok a, w') => k a w'
    | (Err e, w') => (Err e, w')
    end.

Declare Scope svc_scope.
Delimit Scope svc_scope with svc.
Notation "x <- c1 ;; c2" := (bind c1 (fun x => c2))
  (at level 100, c1 at next level, right associativity) : svc_scope.
Notation "c1 ;;; c2" := (bind c1 (fun _ => c2))
  (at level 100, right associativity) : svc_scope.
Local Open Scope svc_scope.

(** A read of the world that cannot fail. *)
Definition gets {L A} (f : World L -> A) : M L A := fun w => (Ok (f w), w).

(** A read of the ledger that may reject. *)
Definition ledger_read {L A} (f : L -> Result A) : M L A :=
  fun w => (f (ledger w), w).

(** A write to the ledger. *)
Definition ledger_write {L A} (f : L -> Result A * L) : M L A :=
  fun w => let '(r, l) := f (ledger w) in (r, set_ledger w l).

(** [Promise.all(xs.map(async (x) => ...))]: every call is started, in
    array order, whether or not an earlier one rejects. The result
    resolves with all the values when every call resolves; it rejects with
    the rejection of the one call that rejects, and with [OneOf] of the
    rejections, whichever settles first, when several do. *)
Fixpoint Promise_all {L A} (ps : list (M L A)) : M L (list A) :=
  fun w =>
    match ps with
    | [] => (Ok [], w)
    | p :: ps' =>
        let '(r, w1) := p w in
        let '(rs, w2) := Promise_all ps' w1 in
        (match r, rs with
         | Ok a, Ok l => Ok (a :: l)
         | Err e, Ok _ => Err e
         | Ok _, Err e => Err e
         | Err e, Err e' => Err (OneOf e e')
         end, w2)
    end.

(** Modelled from the spec: [atomicPhase_] of [TransactionBaseService],
    which is not part of the sources at hand; the work runs in a
    transaction that is committed when it resolves and rolled back when it
    rejects. *)
Definition atomicPhase_ {L A} (work : M L A) : M L A :=
  fun w =>
    match work w with
    | (Ok a, w') => (Ok a, w')
    | (Err e, _) => (Err e, w)
    end.

(** ** JavaScript values met by the validator

    [validateInventoryAtLocation] builds a [Map] from inventory item ids to
    link rows and then reads it with the bracket operator, [pviMap[id]].
    The bracket operator reads a property of the [Map] object, not one of
    its entries: the outcome is one of the values below. *)
Inductive JSValue : Type :=
| JSUndefined
| JSNumber (n : Z)
| JSFunction
| JSObject
| JSLink (pvi : ProductVariantInventoryItem).

(** [!v] is [negb (ToBoolean v)]. *)
Definition ToBoolean (v : JSValue) : bool :=
  match v with
  | JSUndefined => false
  | JSNumber n => negb (n =? 0)
  | JSFunction | JSObject | JSLink _ => true
  end.

(** [v.quantity] as a number; [None] is [NaN], which is what [undefined]
    becomes under [*]. Only a link row has a [quantity] property. *)
Definition quantity_of (v : JSValue) : option Z :=
  match v with
  | JSLink pvi => Some (pvi_quantity pvi)
  | _ => None
  end.

(** [a * b > c] on numbers, where a [NaN] operand makes [>] false. *)
Definition times_gt (a : option Z) (b c : Z) : bool :=
  match a with
  | Some x => c <? x * b
  | None => false
  end.

(** [new Map(entries)]: later entries overwrite earlier ones. *)
Definition Map_new (entries : list (string * ProductVariantInventoryItem))
    : gmap string ProductVariantInventoryItem :=
  foldl (fun m kv => <[kv.1 := kv.2]> m) ∅ entries.

(** The function-valued properties every [Map] object inherits from
    [Map.prototype] and [Object.prototype]. *)
Definition Map_inherited_methods : list string :=
  [ "constructor"; "clear"; "delete"; "entries"; "forEach"; "get"; "has";
    "keys"; "set"; "values";
    "hasOwnProperty"; "isPrototypeOf"; "propertyIsEnumerable";
    "toLocaleString"; "toString"; "valueOf";
    "__defineGetter__"; "__defineSetter__";
    "__lookupGetter__"; "__lookupSetter__" ].

Definition is_inherited_property (k : string) : bool :=
  String.eqb k "size" || String.eqb k "__proto__"
  || existsb (String.eqb k) Map_inherited_methods.

(** [m[k]] for a [Map] object [m] without own properties: the entries of
    the map are not properties, so the read falls through to the prototype
    chain. *)
Definition Map_bracket (m : gmap string ProductVariantInventoryItem)
    (k : string) : JSValue :=
  if String.eqb k "size" then JSNumber (Z.of_nat (size m))
  else if String.eqb k "__proto__" then JSObject
  else if existsb (String.eqb k) Map_inherited_methods then JSFunction
  else JSUndefined.

(** [string | string[]] arguments. *)
Inductive StringOrArray : Type :=
| One (s : string)
| Many (l : list string).

Section Service.

Context {L : Type}.

(** The injected inventory service; [None] when none is wired in. *)
Variable inventoryService_ : option (IInventoryService L).

(** *** Variant store, sales channel locations, stock locations *)

Definition variant_not_found (id : string) : Error :=
  MedusaError NOT_FOUND ("Variant with id: " +:+ id +:+ " was not found").

(** Modelled from the spec: [productVariantService_.retrieve], whose code
    is not part of the sources at hand; it fails with [NOT_FOUND] when the
    id is unknown. *)
Definition retrieveVariant (id : string) : M L ProductVariant :=
  fun w =>
    match product_variants w !! id with
    | Some v => (Ok v, w)
    | None => (Err (variant_not_found id), w)
    end.

(** Modelled from the spec: [productVariantService_.update] called with
    [{ inventory_quantity }], whose code is not part of the sources at
    hand. *)
Definition updateVariant (id : string) (inventory_quantity' : Z) : M L unit :=
  fun w =>
    match product_variants w !! id with
    | Some v =>
        (Ok tt,
         set_product_variants w
           (<[id := {| allow_backorder := allow_backorder v;
                       manage_inventory := manage_inventory v;
                       inventory_quantity := inventory_quantity' |}]>
              (product_variants w)))
    | None => (Err (variant_not_found id), w)
    end.

(** Modelled from the spec: [salesChannelLocationService_.listLocations],
    the location ids associated with a sales channel. *)
Definition listLocations (salesChannelId : string) : M L (list string) :=
  gets (fun w => default [] (sales_channel_locations w !! salesChannelId)).

(** Modelled from the spec: [stockLocationService_.list({}, { select:
    ["id"] })], mapped to the ids. *)
Definition listStockLocationIds : M L (list string) :=
  gets (fun w => stock_locations w).

(** *** The link repository *)

Definition same_pair (variantId inventoryItemId : string)
    (pvi : ProductVariantInventoryItem) : bool :=
  String.eqb (pvi_variant_id pvi) variantId
  && String.eqb (pvi_inventory_item_id pvi) inventoryItemId.

(** [variantInventoryRepo.findOne({ where: { variant_id,
    inventory_item_id } })]. *)
Definition findOne (variantId inventoryItemId : string)
    : M L (option ProductVariantInventoryItem) :=
  gets (fun w =>
          List.find (same_pair variantId inventoryItemId)
            (variant_inventory w)).

(** [variantInventoryRepo.save(variantInventoryRepo.create(row))]. *)
Definition save (row : ProductVariantInventoryItem)
    : M L ProductVariantInventoryItem :=
  fun w => (Ok row, set_variant_inventory w (variant_inventory w ++ [row])).

Definition retrieve (inventoryItemId variantId : string)
    : M L ProductVariantInventoryItem :=
  variantInventory <- findOne variantId inventoryItemId ;;
  match variantInventory with
  | None =>
      throw (MedusaError NOT_FOUND
               ("Inventory item with id " +:+ inventoryItemId +:+ " not found"))
  | Some variantInventory => ret variantInventory
  end.

Definition listByVariant (variantId : StringOrArray)
    : M L (list ProductVariantInventoryItem) :=
  let ids := match variantId with One s => [s] | Many l => l end in
  gets (fun w =>
          List.filter (fun pvi => existsb (String.eqb (pvi_variant_id pvi)) ids)
            (variant_inventory w)).

(** *** confirmInventory *)

Definition confirmInventory (variantId : option string) (quantity : Z)
    (context_salesChannelId : option string) : M L bool :=
  match variantId with
  | None => ret true
  | Some variantId =>
  if String.eqb variantId "" then ret true else
  productVariant <- retrieveVariant variantId ;;
  if allow_backorder productVariant || negb (manage_inventory productVariant)
  then ret true
  else
    match inventoryService_ with
    | None => ret (quantity <=? inventory_quantity productVariant)
    | Some inventoryService =>
        variantInventory <- listByVariant (One variantId) ;;
        if (length variantInventory =? 0)%nat then ret true
        else
          locations <-
            (match context_salesChannelId with
             | Some sc =>
                 if String.eqb sc "" then listStockLocationIds
                 else listLocations sc
             | None => listStockLocationIds
             end) ;;
          hasInventory <-
            Promise_all
              (map (fun inventoryPart =>
                      let itemQuantity :=
                        pvi_quantity inventoryPart * quantity in
                      ledger_read
                        (ledgerConfirmInventory inventoryService
                           (pvi_inventory_item_id inventoryPart)
                           locations itemQuantity))
                 variantInventory) ;;
          ret (forallb (fun b => b) hasInventory)
    end
  end.

(** *** attachInventoryItem *)

Definition attachInventoryItem (variantId inventoryItemId : string)
    (quantity : option Z) : M L ProductVariantInventoryItem :=
  (* Verify that variant exists *)
  _ <- retrieveVariant variantId ;;
  match inventoryService_ with
  | None =>
      throw (TypeError
               "Cannot read properties of undefined (reading 'retrieveInventoryItem')")
  | Some inventoryService =>
      (* Verify that item exists *)
      _ <- ledger_read (retrieveInventoryItem inventoryService inventoryItemId) ;;
      existing <- findOne variantId inventoryItemId ;;
      match existing with
      | Some existing => ret existing
      | None =>
          quantityToStore <-
            (match quantity with
             | Some quantity =>
                 if quantity <? 1 then throw InvalidQuantity
                 else ret quantity
             | None => ret 1
             end) ;;
          save {| pvi_variant_id := variantId;
                  pvi_inventory_item_id := inventoryItemId;
                  pvi_quantity := quantityToStore |}
      end
  end.

(** *** reserveQuantity *)

(** The reservation request built for one link row. *)
Definition reservation_input (context : ReserveQuantityContext)
    (locationId : option string) (quantity : Z)
    (inventoryPart : ProductVariantInventoryItem)
    : CreateReservationItemInput :=
  let itemQuantity := js_times (pvi_quantity inventoryPart) quantity in
  {| cri_type := "order";
     cri_line_item_id := lineItemId context;
     cri_location_id := locationId;
     cri_inventory_item_id := pvi_inventory_item_id inventoryPart;
     cri_quantity := itemQuantity |}.

(** The location the reservations are placed at: the given one, else the
    first location of the given sales channel, else [undefined]. *)
Definition resolve_locationId (context : ReserveQuantityContext)
    : M L (option string) :=
  let locationId := locationId context in
  if negb (isDefined locationId) && truthy (salesChannelId context) then
    locations <- listLocations (default "" (salesChannelId context)) ;;
    if (length locations =? 0)%nat then throw LocationRequired
    else ret (head locations)
  else ret locationId.

Definition reserveQuantity (variantId : string) (quantity : Z)
    (context : ReserveQuantityContext) : M L unit :=
  match inventoryService_ with
  | None =>
      atomicPhase_
        (variant <- retrieveVariant variantId ;;
         updateVariant variantId (inventory_quantity variant - quantity))
  | Some inventoryService =>
      variantInventory <- listByVariant (One variantId) ;;
      if (length variantInventory =? 0)%nat then ret tt
      else
        locationId <- resolve_locationId context ;;
        _ <- Promise_all
               (map (fun inventoryPart =>
                       ledger_write
                         (createReservationItem inventoryService
                            (reservation_input context locationId quantity
                               inventoryPart)))
                  variantInventory) ;;
        ret tt
  end.

(** *** adjustReservationsQuantityByLineItem *)

(** [reservations.find((r) => r.location_id === locationId && r.quantity
    >= quantity) ?? reservations[0]]; [None] is [undefined]. *)
Definition pick_reservation (reservations : list ReservationItemDTO)
    (locationId : string) (quantity : Z) : option ReservationItemDTO :=
  let reservation := head reservations in
  match List.find
          (fun r => String.eqb (res_location_id r) locationId
                    && (quantity <=? res_quantity r))
          reservations with
  | Some r => Some r
  | None => reservation
  end.

Definition adjustReservationsQuantityByLineItem
    (lineItemId variantId locationId : string) (quantity : Z) : M L unit :=
  match inventoryService_ with
  | None =>
      atomicPhase_
        (variant <- retrieveVariant variantId ;;
         if negb (manage_inventory variant) then ret tt
         else updateVariant variantId (inventory_quantity variant - quantity))
  | Some inventoryService =>
      listed <- ledger_read (listReservationItems inventoryService lineItemId) ;;
      let '(reservations, reservationCount) := listed in
      if negb (reservationCount =? 0)%nat then
        match pick_reservation reservations locationId quantity with
        | None =>
            throw (TypeError
                     "Cannot read properties of undefined (reading 'inventory_item_id')")
        | Some reservation =>
            productVariantInventory <-
              retrieve (res_inventory_item_id reservation) variantId ;;
            let reservationQtyUpdate :=
              res_quantity reservation
              - quantity * pvi_quantity productVariantInventory in
            if reservationQtyUpdate =? 0 then
              ledger_write
                (deleteReservationItem inventoryService (res_id reservation))
            else
              ledger_write
                (updateReservationItem inventoryService (res_id reservation)
                   reservationQtyUpdate)
        end
      else ret tt
  end.

(** *** validateInventoryAtLocation *)

(** The body of the inner loop for one inventory level. *)
Definition check_level
    (pviMap : gmap string ProductVariantInventoryItem) (item : LineItem)
    (inventoryLevel : InventoryLevelDTO) : M L unit :=
  let pvInventoryItem :=
    Map_bracket pviMap (lvl_inventory_item_id inventoryLevel) in
  if negb (ToBoolean pvInventoryItem)
     || times_gt (quantity_of pvInventoryItem) (li_quantity item)
          (lvl_stocked_quantity inventoryLevel)
  then throw (InsufficientStock (li_title item))
  else ret tt.

(** [for (const x of xs) { await body(x) }]: stops at the first
    rejection. *)
Fixpoint for_of {A} (xs : list A) (body : A -> M L unit) : M L unit :=
  match xs with
  | [] => ret tt
  | x :: xs' => _ <- body x ;; for_of xs' body
  end.

Definition validate_item (inventoryService : IInventoryService L)
    (locationId : string) (item : LineItem) : M L unit :=
  pvInventoryItems <- listByVariant (One (default "" (li_variant_id item))) ;;
  listed <-
    ledger_read
      (listInventoryLevels inventoryService
         (map pvi_inventory_item_id pvInventoryItems) locationId) ;;
  let inventoryLevels := fst listed in
  let pviMap :=
    Map_new (map (fun pvi => (pvi_inventory_item_id pvi, pvi))
               pvInventoryItems) in
  for_of inventoryLevels (check_level pviMap item).

Definition validateInventoryAtLocation (items : list LineItem)
    (locationId : string) : M L unit :=
  match inventoryService_ with
  | None => ret tt
  | Some inventoryService =>
      let itemsToValidate :=
        List.filter (fun item => truthy (li_variant_id item)) items in
      for_of itemsToValidate (validate_item inventoryService locationId)
  end.

(** *** deleteReservationsByLineItem *)

Definition deleteReservationsByLineItem (lineItemId variantId : string)
    (quantity : Z) : M L unit :=
  match inventoryService_ with
  | None =>
      atomicPhase_
        (variant <- retrieveVariant variantId ;;
         if negb (manage_inventory variant) then ret tt
         else updateVariant variantId (inventory_quantity variant + quantity))
  | Some inventoryService =>
      ledger_write
        (deleteReservationItemsByLineItem inventoryService lineItemId)
  end.

End Service.

Arguments confirmInventory {L} _ _ _ _ _.
Arguments attachInventoryItem {L} _ _ _ _ _.
Arguments reserveQuantity {L} _ _ _ _ _.
Arguments adjustReservationsQuantityByLineItem {L} _ _ _ _ _ _.
Arguments validateInventoryAtLocation {L} _ _ _ _.
Arguments deleteReservationsByLineItem {L} _ _ _ _ _.

(** ** A test double for the injected inventory service

    Reads are answered from fixtures; every write is accepted and recorded,
    so that the requests a method sends to the ledger can be inspected. *)
Module Mock.

Inductive Call : Type :=
| CreateReservationItem (input : CreateReservationItemInput)
| UpdateReservationItem (id : string) (quantity : Z)
| DeleteReservationItem (id : string)
| DeleteReservationItemsByLineItem (lineItemId : string).

Record State : Type := {
  items : list string;
  levels : list InventoryLevelDTO;
  reservations : list ReservationItemDTO;
  calls : list Call
}.

Definition record (c : Call) (s : State) : State :=
  {| items := items s;
     levels := levels s;
     reservations := reservations s;
     calls := calls s ++ [c] |}.

Definition mem (x : string) (xs : list string) : bool :=
  existsb (String.eqb x) xs.

Definition sumZ (zs : list Z) : Z := foldr Z.add 0 zs.

(** Units of [item] reserved at [loc]. *)
Definition reserved_at (s : State) (item loc : string) : Z :=
  sumZ (map res_quantity
          (List.filter
             (fun r => String.eqb (res_inventory_item_id r) item
                       && String.eqb (res_location_id r) loc)
             (reservations s))).

(** Stocked minus reserved units of [item], summed over [locs]. *)
Definition available (s : State) (item : string) (locs : list string) : Z :=
  sumZ (map (fun l => lvl_stocked_quantity l
                      - reserved_at s item (lvl_location_id l))
          (List.filter
             (fun l => String.eqb (lvl_inventory_item_id l) item
                       && mem (lvl_location_id l) locs)
             (levels s))).

Fixpoint insert_desc (r : ReservationItemDTO)
    (rs : list ReservationItemDTO) : list ReservationItemDTO :=
  match rs with
  | [] => [r]
  | r' :: rs' =>
      if res_created_at r' <=? res_created_at r then r :: rs
      else r' :: insert_desc r rs'
  end.

(** [order: { created_at: "DESC" }]. *)
Definition sort_desc (rs : list ReservationItemDTO)
    : list ReservationItemDTO :=
  foldr insert_desc [] rs.

Definition service : IInventoryService State := {|
  retrieveInventoryItem := fun id s =>
    if mem id (items s) then Ok tt
    else Err (MedusaError NOT_FOUND
                ("InventoryItem with id " +:+ id +:+ " was not found"));
  ledgerConfirmInventory := fun item locs q s =>
    Ok (q <=? available s item locs);
  listReservationItems := fun lineItemId s =>
    let rs :=
      sort_desc
        (List.filter
           (fun r => match res_line_item_id r with
                     | Some l => String.eqb l lineItemId
                     | None => false
                     end)
           (reservations s)) in
    Ok (rs, length rs);
  listInventoryLevels := fun ids loc s =>
    let ls :=
      List.filter
        (fun l => mem (lvl_inventory_item_id l) ids
                  && String.eqb (lvl_location_id l) loc)
        (levels s) in
    Ok (ls, length ls);
  createReservationItem := fun input s =>
    (Ok {| res_id := "resitem_new";
           res_line_item_id := cri_line_item_id input;
           res_inventory_item_id := cri_inventory_item_id input;
           res_location_id := default "" (cri_location_id input);
           res_quantity := cri_quantity input;
           res_created_at := 0 |},
     record (CreateReservationItem input) s);
  updateReservationItem := fun id q s =>
    (Ok tt, record (UpdateReservationItem id q) s);
  deleteReservationItem := fun id s =>
    (Ok tt, record (DeleteReservationItem id) s);
  deleteReservationItemsByLineItem := fun lineItemId s =>
    (Ok tt, record (DeleteReservationItemsByLineItem lineItemId) s)
|}.

(** A world around the test double. *)
Definition world (variants : list (string * ProductVariant))
    (links : list ProductVariantInventoryItem)
    (channels : list (string * list string)) (locations : list string)
    (s : State) : World State :=
  {| product_variants := list_to_map variants;
     variant_inventory := links;
     sales_channel_locations := list_to_map channels;
     stock_locations := locations;
     ledger := s |}.

End Mock.

(** ** Vocabulary of the statements *)

(** The link rows of a variant, as [listByVariant] returns them. *)
Definition links_of {L} (w : World L) (variantId : string)
    : list ProductVariantInventoryItem :=
  List.filter (fun pvi => existsb (String.eqb (pvi_variant_id pvi)) [variantId])
    (variant_inventory w).


(** The filter of [pick_reservation] as a proposition: the reservation is
    placed at [locationId] and holds at least the requested, signed,
    quantity. *)
Definition eligible (locationId : string) (quantity : Z)
    (r : ReservationItemDTO) : Prop :=
  res_location_id r = locationId /\ quantity <= res_quantity r.

(** No reservation of the list was created after [r]. *)
Definition most_recent (rs : list ReservationItemDTO)
    (r : ReservationItemDTO) : Prop :=
  forall r', In r' rs -> res_created_at r' <= res_created_at r.

(** Newest first, as [order: { created_at: "DESC" }] asks of the ledger. *)
Definition newest_first (rs : list ReservationItemDTO) : Prop :=
  StronglySorted (fun a b => res_created_at b <= res_created_at a) rs.

(** The target of an adjustment as the specification words it: a
    reservation at [locationId] whose quantity is at least the magnitude
    of the adjustment, else the first of the list. *)
Definition pick_reservation_by_magnitude
    (reservations : list ReservationItemDTO) (locationId : string)
    (quantity : Z) : option ReservationItemDTO :=
  match List.find
          (fun r => String.eqb (res_location_id r) locationId
                    && (Z.abs quantity <=? res_quantity r))
          reservations with
  | Some r => Some r
  | None => head reservations
  end.

(** The locations [confirmInventory] asks the ledger about: those of the
    sales channel when one is given, else every stock location. *)
Definition confirm_locations {L} (w : World L)
    (context_salesChannelId : option string) : list string :=
  match context_salesChannelId with
  | Some sc =>
      if String.eqb sc "" then stock_locations w
      else default [] (sales_channel_locations w !! sc)
  | None => stock_locations w
  end.

(** The answer of the ledger for one link row of a variant of which
    [quantity] units are requested. *)
Definition ledger_answer {L} (inv : IInventoryService L) (w : World L)
    (locations : list string) (quantity : Z)
    (link : ProductVariantInventoryItem) : Result bool :=
  ledgerConfirmInventory inv (pvi_inventory_item_id link) locations
    (pvi_quantity link * quantity) (ledger w).


(** [Promise.all] over the outcomes of reads: the values, or the
    rejection as [Promise_all] gives it. *)
Fixpoint all_results {A} (rs : list (Result A)) : Result (list A) :=
  match rs with
  | [] => Ok []
  | r :: rs' =>
      match r, all_results rs' with
      | Ok a, Ok l => Ok (a :: l)
      | Err e, Ok _ => Err e
      | Ok _, Err e => Err e
      | Err e, Err e' => Err (OneOf e e')
      end
  end.

(** The requests of [reserveQuantity] sent to the ledger one after the
    other. *)
Definition create_all {L} (inv : IInventoryService L)
    (inputs : list CreateReservationItemInput) : M L unit :=
  _ <- Promise_all
         (map (fun input => ledger_write (createReservationItem inv input))
            inputs) ;;
  ret tt.

(** The single location a reservation context resolves to: the given
    location, else the first location of the given sales channel. *)
Inductive resolves_to {L} (w : World L) (context : ReserveQuantityContext)
    : string -> Prop :=
| resolves_by_location (l : string) :
    locationId context = Some l -> resolves_to w context l
| resolves_by_channel (sc l : string) (rest : list string) :
    locationId context = None ->
    salesChannelId context = Some sc ->
    sc <> "" ->
    sales_channel_locations w !! sc = Some (l :: rest) ->
    resolves_to w context l.

(** The request the specification describes for one link row: the linked
    item, the product of the multiplier and the reserved quantity, the
    resolved location, the type "order" and the line item. *)
Definition expected_request (context : ReserveQuantityContext) (l : string)
    (quantity : Z) (link : ProductVariantInventoryItem)
    : CreateReservationItemInput :=
  {| cri_type := "order";
     cri_line_item_id := lineItemId context;
     cri_location_id := Some l;
     cri_inventory_item_id := pvi_inventory_item_id link;
     cri_quantity := js_times (pvi_quantity link) quantity |}.

(** What the ledger makes of a list of reservation requests that reach it
    one after the other: whether it accepted them all, and its state at
    the end. *)
Fixpoint send_requests {L} (inv : IInventoryService L)
    (requests : list CreateReservationItemInput) (led : L) : bool * L :=
  match requests with
  | [] => (true, led)
  | request :: rest =>
      let '(r, led1) := createReservationItem inv request led in
      let '(accepted, led2) := send_requests inv rest led1 in
      (is_ok r && accepted, led2)
  end.

(** The condition under which the inner loop of
    [validateInventoryAtLocation] throws for an inventory level. *)
Definition level_rejected
    (pviMap : gmap string ProductVariantInventoryItem) (item : LineItem)
    (inventoryLevel : InventoryLevelDTO) : bool :=
  let pvInventoryItem :=
    Map_bracket pviMap (lvl_inventory_item_id inventoryLevel) in
  negb (ToBoolean pvInventoryItem)
  || times_gt (quantity_of pvInventoryItem) (li_quantity item)
       (lvl_stocked_quantity inventoryLevel).

(** The stock levels the ledger returns for the linked items of a line
    item at a location. *)
Definition levels_of {L} (inv : IInventoryService L) (w : World L)
    (locationId : string) (item : LineItem)
    : Result (list InventoryLevelDTO * nat) :=
  listInventoryLevels inv
    (map pvi_inventory_item_id
       (links_of w (default "" (li_variant_id item))))
    locationId (ledger w).

(** ** The rest of the service *)

Section ServiceRest.

Context {L : Type}.

Variable inventoryService_ : option (IInventoryService L).

(** [adjustInventory] of the injected inventory service, which the record
    [IInventoryService] above leaves out. *)
Variable ledgerAdjustInventory : string -> string -> Z -> L -> Result unit * L.

Definition listByItem (itemIds : list string)
    : M L (list ProductVariantInventoryItem) :=
  gets (fun w =>
          List.filter
            (fun pvi => existsb (String.eqb (pvi_inventory_item_id pvi))
                          itemIds)
            (variant_inventory w)).

(** Two link rows are the same row. *)
Definition pvi_eqb (a b : ProductVariantInventoryItem) : bool :=
  String.eqb (pvi_variant_id a) (pvi_variant_id b)
  && String.eqb (pvi_inventory_item_id a) (pvi_inventory_item_id b)
  && (pvi_quantity a =? pvi_quantity b).

Fixpoint remove_row (existing : ProductVariantInventoryItem)
    (rows : list ProductVariantInventoryItem)
    : list ProductVariantInventoryItem :=
  match rows with
  | [] => []
  | row :: rows' =>
      if pvi_eqb row existing then rows'
      else row :: remove_row existing rows'
  end.

(** [variantInventoryRepo.remove(existing)]: the row that [findOne] found
    leaves the table. *)
Definition remove (existing : ProductVariantInventoryItem) : M L unit :=
  fun w =>
    (Ok tt,
     set_variant_inventory w (remove_row existing (variant_inventory w))).

Definition detachInventoryItem (variantId inventoryItemId : string)
    : M L unit :=
  existing <- findOne variantId inventoryItemId ;;
  match existing with
  | Some existing => remove existing
  | None => ret tt
  end.

Definition adjustInventory (variantId locationId : string) (quantity : Z)
    : M L unit :=
  match inventoryService_ with
  | None =>
      atomicPhase_
        (variant <- retrieveVariant variantId ;;
         if negb (manage_inventory variant) then ret tt
         else updateVariant variantId (inventory_quantity variant + quantity))
  | Some _ =>
      variantInventory <- listByVariant (One variantId) ;;
      if (length variantInventory =? 0)%nat then ret tt
      else
        _ <- Promise_all
               (map (fun inventoryPart =>
                       let itemQuantity :=
                         pvi_quantity inventoryPart * quantity in
                       ledger_write
                         (ledgerAdjustInventory
                            (pvi_inventory_item_id inventoryPart)
                            locationId itemQuantity))
                  variantInventory) ;;
        ret tt
  end.

End ServiceRest.

Arguments adjustInventory {L} _ _ _ _ _ _.

(** ** More vocabulary *)

(** The key of a link row. *)
Definition pair_of (pvi : ProductVariantInventoryItem) : string * string :=
  (pvi_variant_id pvi, pvi_inventory_item_id pvi).

(** At most one link row per (variant, inventory item) pair. *)
Definition unique_pairs (rows : list ProductVariantInventoryItem) : Prop :=
  NoDup (map pair_of rows).

(** A computation that leaves the world as it found it. *)
Definition reads {L A} (m : M L A) : Prop := forall w, snd (m w) = w.

(** A computation that changes nothing but the state of the ledger. *)
Definition writes_ledger_only {L A} (m : M L A) : Prop :=
  forall w, set_ledger (snd (m w)) (ledger w) = w.

(** Between [w] and [w'] nothing changed but, possibly, the
    [inventory_quantity] of the variant [variantId]. *)
Definition only_inventory_quantity_of {L} (variantId : string)
    (w w' : World L) : Prop :=
  variant_inventory w' = variant_inventory w
  /\ sales_channel_locations w' = sales_channel_locations w
  /\ stock_locations w' = stock_locations w
  /\ ledger w' = ledger w
  /\ (forall k, k <> variantId ->
                product_variants w' !! k = product_variants w !! k)
  /\ (allow_backorder <$> product_variants w' !! variantId)
     = (allow_backorder <$> product_variants w !! variantId)
  /\ (manage_inventory <$> product_variants w' !! variantId)
     = (manage_inventory <$> product_variants w !! variantId).

(** A line item with another quantity. *)
Definition with_quantity (q : Z) (item : LineItem) : LineItem :=
  {| li_title := li_title item;
     li_variant_id := li_variant_id item;
     li_quantity := q |}.

(** The [Map] that [validateInventoryAtLocation] builds for a line item. *)
Definition pviMap_of {L} (w : World L) (item : LineItem)
    : gmap string ProductVariantInventoryItem :=
  Map_new
    (map (fun pvi => (pvi_inventory_item_id pvi, pvi))
       (links_of w (default "" (li_variant_id item)))).

(** The quantity a fresh link row is stored with. *)
Definition quantity_to_store (quantity : option Z) : Z :=
  match quantity with Some q => q | None => 1 end.

(** ** Fixtures: the scenarios of the specification *)
Module Fixtures.

Definition variant (backorder manage : bool) (qty : Z) : ProductVariant :=
  {| allow_backorder := backorder;
     manage_inventory := manage;
     inventory_quantity := qty |}.

Definition link (v i : string) (m : Z) : ProductVariantInventoryItem :=
  {| pvi_variant_id := v; pvi_inventory_item_id := i; pvi_quantity := m |}.

Definition level (i loc : string) (stocked : Z) : InventoryLevelDTO :=
  {| lvl_inventory_item_id := i;
     lvl_location_id := loc;
     lvl_stocked_quantity := stocked |}.

Definition reservation (id line i loc : string) (q created : Z)
    : ReservationItemDTO :=
  {| res_id := id;
     res_line_item_id := Some line;
     res_inventory_item_id := i;
     res_location_id := loc;
     res_quantity := q;
     res_created_at := created |}.

Definition ledger_of (ls : list InventoryLevelDTO)
    (rs : list ReservationItemDTO) : Mock.State :=
  {| Mock.items := ["I1"; "I2"];
     Mock.levels := ls;
     Mock.reservations := rs;
     Mock.calls := [] |}.

(** A variant that allows backorders, linked to an item out of stock. *)
Definition backorder_world : World Mock.State :=
  Mock.world [("V1", variant true true 0)] [link "V1" "I1" 2] []
    ["loc-1"] (ledger_of [level "I1" "loc-1" 0] []).

(** Simple Mode: a variant whose inventory is not managed. *)
Definition unmanaged_world : World unit :=
  {| product_variants := {[ "V1" := variant false false 10 ]};
     variant_inventory := [];
     sales_channel_locations := ∅;
     stock_locations := [];
     ledger := tt |}.

(** Simple Mode: ten units of a managed variant. *)
Definition simple_world : World unit :=
  {| product_variants := {[ "V1" := variant false true 10 ]};
     variant_inventory := [];
     sales_channel_locations := ∅;
     stock_locations := [];
     ledger := tt |}.

(** A line item without reservations. *)
Definition no_reservation_world : World Mock.State :=
  Mock.world [("V1", variant false true 0)] [link "V1" "I1" 2] []
    ["loc-1"] (ledger_of [level "I1" "loc-1" 10] []).



(** Two reservations for [line-1]: the newer one, [Ra], of five units at
    [loc-2]; the older one, [Rb], of one unit at [loc-1]. *)
Definition Ra : ReservationItemDTO := reservation "Ra" "line-1" "I1" "loc-2" 5 2.
Definition Rb : ReservationItemDTO := reservation "Rb" "line-1" "I1" "loc-1" 1 1.

Definition two_reservations_world : World Mock.State :=
  Mock.world [("V1", variant false true 0)] [link "V1" "I1" 1] []
    ["loc-1"; "loc-2"]
    (ledger_of [level "I1" "loc-1" 10; level "I1" "loc-2" 10] [Rb; Ra]).

(** [V1] consumes two units of [I1] and one unit of [I2]; [loc-1] holds
    [stock1] units of [I1] and ten units of [I2]. *)
Definition bom_world (stock1 : Z) : World Mock.State :=
  Mock.world [("V1", variant false true 0)]
    [link "V1" "I1" 2; link "V1" "I2" 1] [("sc-empty", [])]
    ["loc-1"; "loc-2"]
    (ledger_of [level "I1" "loc-1" stock1; level "I2" "loc-1" 10] []).

Definition context (loc sc : option string) : ReserveQuantityContext :=
  {| locationId := loc; lineItemId := Some "line-1"; salesChannelId := sc |}.

(** [V1] is already linked to [I1] with multiplier 2; [I2] is a known
    item that is not linked. *)
Definition linked_world : World Mock.State :=
  Mock.world [("V1", variant false true 0)] [link "V1" "I1" 2] []
    ["loc-1"] (ledger_of [] []).

(** [V1] consumes three units of [I1]; [loc-1] holds [stock] units of
    [I1]. *)
Definition stock_world (stock : Z) : World Mock.State :=
  Mock.world [("V1", variant false true 0)] [link "V1" "I1" 3] []
    ["loc-1"; "loc-2"] (ledger_of [level "I1" "loc-1" stock] []).

(** [I1] is stocked at [loc-2] only. *)
Definition missing_world : World Mock.State :=
  Mock.world [("V1", variant false true 0)] [link "V1" "I1" 3] []
    ["loc-1"; "loc-2"] (ledger_of [level "I1" "loc-2" 100] []).

(** Two units of [V1]. *)
Definition tshirt : LineItem :=
  {| li_title := "T-shirt"; li_variant_id := Some "V1"; li_quantity := 2 |}.

End Fixtures.

(** ** Proof automation *)

(** Unfolds the monadic combinators in the goal. *)
Ltac run :=
  unfold bind, ret, throw, gets, ledger_read, ledger_write, atomicPhase_,
    retrieveVariant, updateVariant, findOne, retrieve, listLocations,
    listStockLocationIds; simpl.


(** ** Further scenarios *)
Module Scenarios.


(** A test double that rejects every reservation request. *)
Definition rejecting : IInventoryService Mock.State := {|
  retrieveInventoryItem := retrieveInventoryItem Mock.service;
  ledgerConfirmInventory := fun _ _ _ _ =>
    Err (MedusaError NOT_FOUND "InventoryItem was not found");
  listReservationItems := fun _ _ => Ok ([], 1%nat);
  listInventoryLevels := listInventoryLevels Mock.service;
  createReservationItem := fun input s =>
    (Err (MedusaError NOT_FOUND "Item is not stocked at location"),
     Mock.record (Mock.CreateReservationItem input) s);
  updateReservationItem := updateReservationItem Mock.service;
  deleteReservationItem := deleteReservationItem Mock.service;
  deleteReservationItemsByLineItem :=
    deleteReservationItemsByLineItem Mock.service
|}.

(** A reservation of an item that [V1] is not linked to. *)
Definition orphan_world : World Mock.State :=
  Mock.world [("V1", Fixtures.variant false true 0)]
    [Fixtures.link "V1" "I1" 3] [] ["loc-1"]
    (Fixtures.ledger_of []
       [Fixtures.reservation "R9" "line-1" "I2" "loc-1" 4 1]).

(** A line item without a variant. *)
Definition gift_card : LineItem :=
  {| li_title := "Gift card"; li_variant_id := None; li_quantity := 1 |}.

(** One unit of [V1] consumes 2147483647 units of [I1]. *)
Definition bulk_world : World Mock.State :=
  Mock.world [("V1", Fixtures.variant false true 0)]
    [Fixtures.link "V1" "I1" 2147483647] [] ["loc-1"]
    (Fixtures.ledger_of [Fixtures.level "I1" "loc-1" 10] []).

End Scenarios.
(** ** Basic facts about the monad and the repository *)

Lemma listByVariant_One {L} (variantId : string) (w : World L) :
  listByVariant (One variantId) w = (Ok (links_of w variantId), w).
Proof. reflexivity. Qed.

Lemma length_eqb_0 {A} (l : list A) :
  (length l =? 0)%nat = match l with [] => true | _ => false end.
Proof. destruct l; reflexivity. Qed.

Lemma set_ledger_same {L} (w : World L) : set_ledger w (ledger w) = w.
Proof. destruct w; reflexivity. Qed.

(** ** Variants whose inventory is not authoritative *)

(** C8. For a variant with [allow_backorder = true] or [manage_inventory =
    false], in Simple Mode and in Ledger Mode alike, [confirmInventory]
    returns [true] for any requested quantity and leaves the world as it
    was; an absent (or empty) variant id also returns [true]. *)
Theorem confirmInventory_not_authoritative {L}
    (inv : option (IInventoryService L)) (w : World L) (quantity : Z)
    (sc : option string) :
  (forall variantId v,
      product_variants w !! variantId = Some v ->
      allow_backorder v = true \/ manage_inventory v = false ->
      confirmInventory inv (Some variantId) quantity sc w = (Ok true, w))
  /\ confirmInventory inv None quantity sc w = (Ok true, w)
  /\ confirmInventory inv (Some "") quantity sc w = (Ok true, w).
Proof.
  split; [| split; reflexivity].
  intros variantId v Hv Hflags. unfold confirmInventory.
  destruct (String.eqb variantId ""); [reflexivity |].
  run. rewrite Hv.
  destruct Hflags as [-> | ->]; [reflexivity |].
  rewrite orb_true_r. reflexivity.
Qed.

Lemma confirmInventory_not_authoritative_witness :
  confirmInventory (Some Mock.service) (Some "V1") 1000 None
    Fixtures.backorder_world
  = (Ok true, Fixtures.backorder_world)
  /\ confirmInventory None (Some "V1") 1000 None Fixtures.unmanaged_world
     = (Ok true, Fixtures.unmanaged_world).
Proof.
  split.
  - apply (proj1 (confirmInventory_not_authoritative (Some Mock.service)
                    Fixtures.backorder_world 1000 None)
             "V1" (Fixtures.variant true true 0)).
    + vm_compute. reflexivity.
    + left. reflexivity.
  - apply (proj1 (confirmInventory_not_authoritative None
                    Fixtures.unmanaged_world 1000 None)
             "V1" (Fixtures.variant false false 10)).
    + vm_compute. reflexivity.
    + right. reflexivity.
Defined.

(** ** Simple Mode *)

(** C9. Without an inventory service, [reserveQuantity] lowers the
    variant's [inventory_quantity] by the requested quantity whatever its
    [manage_inventory] flag, whereas
    [adjustReservationsQuantityByLineItem] and
    [deleteReservationsByLineItem] leave a variant with [manage_inventory =
    false] untouched. *)
Theorem simple_mode_reserve_ignores_manage_inventory {L} (w : World L)
    (variantId : string) (v : ProductVariant) (quantity : Z)
    (context : ReserveQuantityContext) (lineItemId locationId : string) :
  product_variants w !! variantId = Some v ->
  reserveQuantity None variantId quantity context w
  = (Ok tt,
     set_product_variants w
       (<[variantId := {| allow_backorder := allow_backorder v;
                          manage_inventory := manage_inventory v;
                          inventory_quantity :=
                            inventory_quantity v - quantity |}]>
          (product_variants w)))
  /\ (manage_inventory v = false ->
      adjustReservationsQuantityByLineItem None lineItemId variantId
        locationId quantity w = (Ok tt, w)
      /\ deleteReservationsByLineItem None lineItemId variantId quantity w
         = (Ok tt, w)).
Proof.
  intros Hv. split.
  - unfold reserveQuantity. run. rewrite Hv. simpl. rewrite Hv. reflexivity.
  - intros Hm.
    unfold adjustReservationsQuantityByLineItem, deleteReservationsByLineItem.
    run. rewrite Hv, Hm. simpl. split; reflexivity.
Qed.

Lemma simple_mode_reserve_ignores_manage_inventory_witness :
  (fst (reserveQuantity None "V1" 4
          {| locationId := None; lineItemId := Some "line-1";
             salesChannelId := None |} Fixtures.unmanaged_world) = Ok tt
   /\ product_variants
        (snd (reserveQuantity None "V1" 4
                {| locationId := None; lineItemId := Some "line-1";
                   salesChannelId := None |} Fixtures.unmanaged_world))
      !! "V1" = Some (Fixtures.variant false false 6))
  /\ adjustReservationsQuantityByLineItem None "line-1" "V1" "loc-1" 4
       Fixtures.unmanaged_world = (Ok tt, Fixtures.unmanaged_world)
  /\ deleteReservationsByLineItem None "line-1" "V1" 4
       Fixtures.unmanaged_world = (Ok tt, Fixtures.unmanaged_world).
Proof.
  pose proof (simple_mode_reserve_ignores_manage_inventory
                Fixtures.unmanaged_world "V1"
                (Fixtures.variant false false 10) 4
                {| locationId := None; lineItemId := Some "line-1";
                   salesChannelId := None |} "line-1" "loc-1"
                ltac:(vm_compute; reflexivity)) as [Hr Hn].
  split.
  - rewrite Hr. split; [reflexivity | vm_compute; reflexivity].
  - apply Hn. reflexivity.
Defined.

(** ** Adjusting the reservations of a line item *)

(** C10. In Ledger Mode, when the ledger lists no reservation for the line
    item, [adjustReservationsQuantityByLineItem] resolves and leaves the
    world, the ledger included, as it was: nothing is created, updated or
    deleted. *)
Theorem adjust_without_reservations {L} (inv : IInventoryService L)
    (w : World L) (lineItemId variantId locationId : string) (quantity : Z)
    (rs : list ReservationItemDTO) :
  listReservationItems inv lineItemId (ledger w) = Ok (rs, 0%nat) ->
  adjustReservationsQuantityByLineItem (Some inv) lineItemId variantId
    locationId quantity w = (Ok tt, w).
Proof.
  intros Hlist. unfold adjustReservationsQuantityByLineItem. run.
  rewrite Hlist. reflexivity.
Qed.

Lemma adjust_without_reservations_witness :
  adjustReservationsQuantityByLineItem (Some Mock.service) "line-1" "V1"
    "loc-1" 2 Fixtures.no_reservation_world
  = (Ok tt, Fixtures.no_reservation_world).
Proof.
  apply (adjust_without_reservations Mock.service
           Fixtures.no_reservation_world "line-1" "V1" "loc-1" 2 []).
  reflexivity.
Defined.

(** The reservation [find] returns is the newest one that passes the
    filter, when the list is sorted newest first. *)
Lemma find_newest_first (f : ReservationItemDTO -> bool)
    (rs : list ReservationItemDTO) (r : ReservationItemDTO) :
  newest_first rs ->
  List.find f rs = Some r ->
  forall r', In r' rs -> f r' = true ->
             res_created_at r' <= res_created_at r.
Proof.
  unfold newest_first. induction 1 as [| a l Hsorted IH Hall]; simpl.
  - discriminate.
  - destruct (f a) eqn:Hfa; intros Hfind r' [<- | Hin] Hf.
    + injection Hfind as <-. lia.
    + injection Hfind as <-.
      rewrite Forall_forall in Hall. apply Hall.
      apply list_elem_of_In. exact Hin.
    + congruence.
    + apply IH; assumption.
Qed.

Lemma head_newest_first (r0 : ReservationItemDTO)
    (rs : list ReservationItemDTO) :
  newest_first (r0 :: rs) -> most_recent (r0 :: rs) r0.
Proof.
  unfold newest_first, most_recent. intros Hsorted r' [<- | Hin]; [lia |].
  apply StronglySorted_inv in Hsorted as [_ Hall].
  rewrite Forall_forall in Hall. apply Hall.
  apply list_elem_of_In. exact Hin.
Qed.

Lemma eligible_spec (locationId : string) (quantity : Z)
    (r : ReservationItemDTO) :
  String.eqb (res_location_id r) locationId && (quantity <=? res_quantity r)
  = true <-> eligible locationId quantity r.
Proof.
  unfold eligible. rewrite andb_true_iff, String.eqb_eq, Z.leb_le. tauto.
Qed.

(** What [adjustReservationsQuantityByLineItem] does in Ledger Mode once
    the reservation is picked and its link found: one ledger write. *)
Lemma adjust_ledger_write {L} (inv : IInventoryService L) (w : World L)
    (lineItemId variantId locationId : string) (quantity : Z)
    (rs : list ReservationItemDTO) (n : nat) (r : ReservationItemDTO)
    (link : ProductVariantInventoryItem) :
  listReservationItems inv lineItemId (ledger w) = Ok (rs, n) ->
  n <> 0%nat ->
  pick_reservation rs locationId quantity = Some r ->
  List.find (same_pair variantId (res_inventory_item_id r))
    (variant_inventory w) = Some link ->
  adjustReservationsQuantityByLineItem (Some inv) lineItemId variantId
    locationId quantity w
  = ledger_write
      (if res_quantity r - quantity * pvi_quantity link =? 0
       then deleteReservationItem inv (res_id r)
       else updateReservationItem inv (res_id r)
              (res_quantity r - quantity * pvi_quantity link)) w.
Proof.
  intros Hlist Hn Hpick Hlink.
  unfold adjustReservationsQuantityByLineItem. run. rewrite Hlist.
  destruct n as [| n']; [congruence |]. simpl.
  rewrite Hpick. run. rewrite Hlink.
  destruct (res_quantity r - quantity * pvi_quantity link =? 0); reflexivity.
Qed.



(** C4, as amended. In Ledger Mode, when the ledger lists the reservations
    of the line item newest first, the adjustment targets the newest
    reservation among those placed at [locationId] whose quantity is at
    least the requested quantity, sign included; when there is none, it
    targets the most recently created reservation. *)
Theorem adjust_targets_preferred_else_most_recent {L}
    (inv : IInventoryService L) (w : World L)
    (lineItemId variantId locationId : string) (quantity : Z)
    (rs : list ReservationItemDTO) (n : nat) :
  listReservationItems inv lineItemId (ledger w) = Ok (rs, n) ->
  n <> 0%nat ->
  rs <> [] ->
  newest_first rs ->
  exists r,
    In r rs
    /\ pick_reservation rs locationId quantity = Some r
    /\ ((eligible locationId quantity r
         /\ forall r', In r' rs -> eligible locationId quantity r' ->
                       res_created_at r' <= res_created_at r)
        \/ ((forall r', In r' rs -> ~ eligible locationId quantity r')
            /\ most_recent rs r))
    /\ forall link,
         List.find (same_pair variantId (res_inventory_item_id r))
           (variant_inventory w) = Some link ->
         adjustReservationsQuantityByLineItem (Some inv) lineItemId
           variantId locationId quantity w
         = ledger_write
             (if res_quantity r - quantity * pvi_quantity link =? 0
              then deleteReservationItem inv (res_id r)
              else updateReservationItem inv (res_id r)
                     (res_quantity r - quantity * pvi_quantity link)) w.
Proof.
  intros Hlist Hn Hne Hsorted.
  destruct rs as [| r0 rs']; [congruence |].
  unfold pick_reservation.
  destruct (List.find
              (fun r => String.eqb (res_location_id r) locationId
                        && (quantity <=? res_quantity r)) (r0 :: rs'))
    as [r |] eqn:Hfind.
  - exists r. destruct (find_some _ _ Hfind) as [Hin Hf].
    split; [exact Hin |]. split; [reflexivity |]. split.
    + left. split; [apply eligible_spec; exact Hf |].
      intros r' Hin' Hel.
      apply (find_newest_first _ _ _ Hsorted Hfind r' Hin').
      apply eligible_spec. exact Hel.
    + intros link Hlink.
      apply (adjust_ledger_write inv w lineItemId variantId locationId
               quantity (r0 :: rs') n r link Hlist Hn); [| exact Hlink].
      unfold pick_reservation. rewrite Hfind. reflexivity.
  - exists r0. split; [left; reflexivity |]. split; [reflexivity |]. split.
    + right. split; [| apply head_newest_first; exact Hsorted].
      intros r' Hin' Hel. apply eligible_spec in Hel.
      pose proof (find_none _ _ Hfind r' Hin') as Hnone. simpl in Hnone.
      congruence.
    + intros link Hlink.
      apply (adjust_ledger_write inv w lineItemId variantId locationId
               quantity (r0 :: rs') n r0 link Hlist Hn); [| exact Hlink].
      unfold pick_reservation. rewrite Hfind. reflexivity.
Qed.

Lemma adjust_targets_preferred_else_most_recent_witness :
  exists r,
    In r [Fixtures.Ra; Fixtures.Rb]
    /\ pick_reservation [Fixtures.Ra; Fixtures.Rb] "loc-1" 1 = Some r.
Proof.
  destruct (adjust_targets_preferred_else_most_recent Mock.service
              Fixtures.two_reservations_world "line-1" "V1" "loc-1" 1
              [Fixtures.Ra; Fixtures.Rb] 2 eq_refl
              ltac:(discriminate) ltac:(discriminate)
              ltac:(unfold newest_first; repeat constructor; simpl; lia))
    as [r [Hin [Hpick _]]].
  exists r. split; assumption.
Defined.

(** The selection of the code against the selection by magnitude: for an
    adjustment of -2 at [loc-1], the only reservation at [loc-1] holds one
    unit, less than the magnitude 2, so the wording of the specification
    targets the most recent reservation [Ra]; the code compares with -2 and
    targets [Rb], which it updates from 1 to 3. *)
Lemma adjust_prefers_by_magnitude_counterexample :
  listReservationItems Mock.service "line-1"
    (ledger Fixtures.two_reservations_world)
  = Ok ([Fixtures.Ra; Fixtures.Rb], 2%nat)
  /\ pick_reservation_by_magnitude [Fixtures.Ra; Fixtures.Rb] "loc-1" (-2)
     = Some Fixtures.Ra
  /\ pick_reservation [Fixtures.Ra; Fixtures.Rb] "loc-1" (-2)
     = Some Fixtures.Rb
  /\ pick_reservation [Fixtures.Ra; Fixtures.Rb] "loc-1" (-2)
     <> pick_reservation_by_magnitude [Fixtures.Ra; Fixtures.Rb] "loc-1" (-2)
  /\ Mock.calls
       (ledger
          (snd (adjustReservationsQuantityByLineItem (Some Mock.service)
                  "line-1" "V1" "loc-1" (-2)
                  Fixtures.two_reservations_world)))
     = [Mock.UpdateReservationItem "Rb" 3].
Proof.
  repeat split; try reflexivity. vm_compute. discriminate.
Qed.

(** ** Availability in Ledger Mode *)

Lemma Promise_all_reads {L A B} (f : B -> L -> Result A) (xs : list B)
    (w : World L) :
  Promise_all (map (fun x => ledger_read (f x)) xs) w
  = (all_results (map (fun x => f x (ledger w)) xs), w).
Proof.
  induction xs as [| x xs IH]; [reflexivity |].
  cbn [map Promise_all]. unfold ledger_read at 1. cbn beta iota zeta.
  rewrite IH. reflexivity.
Qed.



(** [confirmInventory] in Ledger Mode for a variant whose inventory is
    authoritative and that has link rows. *)
Lemma confirmInventory_ledger_eq {L} (inv : IInventoryService L)
    (w : World L) (variantId : string) (v : ProductVariant) (quantity : Z)
    (sc : option string) :
  variantId <> "" ->
  product_variants w !! variantId = Some v ->
  allow_backorder v = false ->
  manage_inventory v = true ->
  links_of w variantId <> [] ->
  confirmInventory (Some inv) (Some variantId) quantity sc w
  = (match all_results
             (map (ledger_answer inv w (confirm_locations w sc) quantity)
                (links_of w variantId)) with
     | Ok bs => Ok (forallb (fun b => b) bs)
     | Err e => Err e
     end, w).
Proof.
  intros Hid Hv Hb Hm Hlinks. unfold confirmInventory.
  apply String.eqb_neq in Hid. rewrite Hid.
  unfold bind at 1. unfold retrieveVariant. rewrite Hv, Hb, Hm. simpl.
  unfold bind at 1. rewrite listByVariant_One, length_eqb_0.
  destruct (links_of w variantId) as [| l ls] eqn:Hl; [congruence |].
  unfold bind at 1.
  assert (Hloc :
    (match sc with
     | Some sc0 =>
         if String.eqb sc0 "" then listStockLocationIds
         else listLocations sc0
     | None => listStockLocationIds
     end) w = (Ok (confirm_locations w sc), w)).
  { unfold confirm_locations. destruct sc as [sc0 |]; [| reflexivity].
    destruct (String.eqb sc0 ""); reflexivity. }
  rewrite Hloc. unfold bind.
  rewrite (Promise_all_reads
             (fun inventoryPart =>
                ledgerConfirmInventory inv
                  (pvi_inventory_item_id inventoryPart)
                  (confirm_locations w sc)
                  (pvi_quantity inventoryPart * quantity))).
  unfold ledger_answer.
  destruct (all_results _); reflexivity.
Qed.




(** ** Reserving in Ledger Mode *)

Lemma resolve_locationId_given {L} (w : World L)
    (context : ReserveQuantityContext) (l : string) :
  locationId context = Some l ->
  resolve_locationId context w = (Ok (Some l), w).
Proof. intros Hl. unfold resolve_locationId. rewrite Hl. reflexivity. Qed.

Lemma resolve_locationId_channel {L} (w : World L)
    (context : ReserveQuantityContext) (sc : string) :
  locationId context = None ->
  salesChannelId context = Some sc ->
  sc <> "" ->
  resolve_locationId context w
  = match default [] (sales_channel_locations w !! sc) with
    | [] => (Err LocationRequired, w)
    | l :: _ => (Ok (Some l), w)
    end.
Proof.
  intros Hl Hsc Hne. unfold resolve_locationId. rewrite Hl, Hsc. simpl.
  apply String.eqb_neq in Hne. rewrite Hne. simpl. run.
  destruct (default [] (sales_channel_locations w !! sc)); reflexivity.
Qed.

Lemma resolve_locationId_neither {L} (w : World L)
    (context : ReserveQuantityContext) :
  locationId context = None ->
  truthy (salesChannelId context) = false ->
  resolve_locationId context w = (Ok None, w).
Proof.
  intros Hl Hsc. unfold resolve_locationId. rewrite Hl, Hsc. reflexivity.
Qed.

Lemma resolves_to_resolve_locationId {L} (w : World L)
    (context : ReserveQuantityContext) (l : string) :
  resolves_to w context l ->
  resolve_locationId context w = (Ok (Some l), w).
Proof.
  intros [l' Hl | sc l' rest Hl Hsc Hne Hlocs].
  - apply resolve_locationId_given. exact Hl.
  - rewrite (resolve_locationId_channel w context sc Hl Hsc Hne), Hlocs.
    reflexivity.
Qed.

(** [reserveQuantity] in Ledger Mode for a variant with link rows: resolve
    the location, then send one request per link row. *)
Lemma reserveQuantity_ledger_eq {L} (inv : IInventoryService L)
    (w : World L) (variantId : string) (quantity : Z)
    (context : ReserveQuantityContext) :
  links_of w variantId <> [] ->
  reserveQuantity (Some inv) variantId quantity context w
  = match resolve_locationId context w with
    | (Ok loc, w') =>
        create_all inv
          (map (reservation_input context loc quantity)
             (links_of w variantId)) w'
    | (Err e, w') => (Err e, w')
    end.
Proof.
  intros Hlinks. unfold reserveQuantity.
  unfold bind at 1. rewrite listByVariant_One, length_eqb_0.
  destruct (links_of w variantId) as [| l ls] eqn:Hl; [congruence |].
  unfold bind at 1.
  destruct (resolve_locationId context w) as [[loc | e] w']; [| reflexivity].
  unfold create_all. rewrite (map_map (reservation_input context loc quantity)).
  reflexivity.
Qed.

(** A list of requests written to the ledger through [Promise_all]
    reaches the ledger request by request. *)
Lemma Promise_all_send_requests {L} (inv : IInventoryService L)
    (requests : list CreateReservationItemInput) (w : World L) :
  snd (Promise_all
         (map (fun input => ledger_write (createReservationItem inv input))
            requests) w)
  = set_ledger w (snd (send_requests inv requests (ledger w)))
  /\ is_ok (fst (Promise_all
                   (map (fun input =>
                           ledger_write (createReservationItem inv input))
                      requests) w))
     = fst (send_requests inv requests (ledger w)).
Proof.
  revert w. induction requests as [| request rest IH]; intros w.
  - simpl. split; [symmetry; apply set_ledger_same | reflexivity].
  - cbn [map Promise_all send_requests]. unfold ledger_write at 1 3.
    destruct (createReservationItem inv request (ledger w)) as [r led1].
    cbn beta iota zeta.
    destruct (IH (set_ledger w led1)) as [IHsnd IHok]. simpl in IHsnd, IHok.
    destruct (Promise_all _ (set_ledger w led1)) as [rs w2].
    destruct (send_requests inv rest led1) as [accepted led2].
    simpl in *. subst w2 accepted.
    split; [reflexivity |]. destruct r, rs; reflexivity.
Qed.

Lemma round_to_double_exact (z : Z) :
  Z.abs z <= 2 ^ 53 -> round_to_double z = z.
Proof.
  intros H. unfold round_to_double. apply Z.leb_le in H. rewrite H.
  reflexivity.
Qed.

(** C6, as amended. In Ledger Mode, for a variant without link rows
    [reserveQuantity] resolves and leaves the world as it was. For a
    variant whose listed link rows are not empty and a context that
    resolves to a single location, reserving quantity Q changes the ledger
    state, and nothing else, into what the ledger makes of exactly one
    [createReservationItem] request per listed link row, in the order of
    the listing: for the linked item, at the resolved location, of type
    "order", for the given line item, and of the product of Q and the
    multiplier M as JavaScript computes it; the call resolves exactly when
    the ledger accepts every request. That product is exactly Q * M
    whenever Q * M does not exceed 2^53 in magnitude. *)
Theorem reserveQuantity_one_request_per_link {L} (inv : IInventoryService L)
    (w : World L) (variantId : string) (quantity : Z)
    (context : ReserveQuantityContext) :
  (listByVariant (One variantId) w = (Ok [], w) ->
   reserveQuantity (Some inv) variantId quantity context w = (Ok tt, w))
  /\ (forall rows l,
        listByVariant (One variantId) w = (Ok rows, w) ->
        rows <> [] ->
        resolves_to w context l ->
        let requests := map (expected_request context l quantity) rows in
        length requests = length rows
        /\ snd (reserveQuantity (Some inv) variantId quantity context w)
           = set_ledger w (snd (send_requests inv requests (ledger w)))
        /\ is_ok (fst (reserveQuantity (Some inv) variantId quantity
                         context w))
           = fst (send_requests inv requests (ledger w)))
  /\ (forall l link,
        Z.abs (quantity * pvi_quantity link) <= 2 ^ 53 ->
        cri_quantity (expected_request context l quantity link)
        = quantity * pvi_quantity link).
Proof.
  split; [| split].
  - rewrite listByVariant_One. intros [= Hnone].
    unfold reserveQuantity. unfold bind.
    rewrite listByVariant_One, Hnone. reflexivity.
  - rewrite listByVariant_One. intros rows l [= <-] Hlinks Hres requests.
    split; [apply length_map |].
    rewrite (reserveQuantity_ledger_eq inv w variantId quantity context
               Hlinks).
    rewrite (resolves_to_resolve_locationId w context l Hres).
    unfold create_all, bind.
    change (map (reservation_input context (Some l) quantity)
              (links_of w variantId)) with requests.
    destruct (Promise_all_send_requests inv requests w) as [Hsnd Hok].
    destruct (Promise_all _ w) as [[rs | e] w2]; simpl in *;
      split; assumption.
  - intros l link Hbound. simpl. unfold js_times.
    rewrite round_to_double_exact; lia.
Qed.

Lemma reserveQuantity_one_request_per_link_witness :
  is_ok (fst (reserveQuantity (Some Mock.service) "V1" 3
                (Fixtures.context (Some "loc-1") None)
                (Fixtures.bom_world 10))) = true
  /\ Mock.calls
       (ledger
          (snd (reserveQuantity (Some Mock.service) "V1" 3
                  (Fixtures.context (Some "loc-1") None)
                  (Fixtures.bom_world 10))))
     = [ Mock.CreateReservationItem
           {| cri_type := "order"; cri_line_item_id := Some "line-1";
              cri_location_id := Some "loc-1"; cri_inventory_item_id := "I1";
              cri_quantity := 3 * 2 |};
         Mock.CreateReservationItem
           {| cri_type := "order"; cri_line_item_id := Some "line-1";
              cri_location_id := Some "loc-1"; cri_inventory_item_id := "I2";
              cri_quantity := 3 * 1 |} ].
Proof.
  destruct (proj1 (proj2 (reserveQuantity_one_request_per_link Mock.service
                            (Fixtures.bom_world 10) "V1" 3
                            (Fixtures.context (Some "loc-1") None)))
              [Fixtures.link "V1" "I1" 2; Fixtures.link "V1" "I2" 1] "loc-1"
              eq_refl ltac:(discriminate)
              (resolves_by_location (Fixtures.bom_world 10)
                 (Fixtures.context (Some "loc-1") None) "loc-1" eq_refl))
    as [_ [Hsnd Hok]].
  split.
  - rewrite Hok. reflexivity.
  - rewrite Hsnd. reflexivity.
Defined.

(** One unit of [V1] consumes 2147483647 units of [I1]; 2147483647 units
    of [V1] are reserved. The product, 4611686014132420609, is no double:
    the request that reaches the ledger asks for 4611686014132420608. *)
Lemma reserveQuantity_exact_product_counterexample :
  links_of Scenarios.bulk_world "V1" = [Fixtures.link "V1" "I1" 2147483647]
  /\ 2147483647 * 2147483647 = 4611686014132420609
  /\ Mock.calls
       (ledger
          (snd (reserveQuantity (Some Mock.service) "V1" 2147483647
                  (Fixtures.context (Some "loc-1") None)
                  Scenarios.bulk_world)))
     = [ Mock.CreateReservationItem
           {| cri_type := "order"; cri_line_item_id := Some "line-1";
              cri_location_id := Some "loc-1"; cri_inventory_item_id := "I1";
              cri_quantity := 4611686014132420608 |} ]
  /\ ~ (exists input,
           In (Mock.CreateReservationItem input)
             (Mock.calls
                (ledger
                   (snd (reserveQuantity (Some Mock.service) "V1" 2147483647
                           (Fixtures.context (Some "loc-1") None)
                           Scenarios.bulk_world))))
           /\ cri_quantity input = 2147483647 * 2147483647).
Proof.
  assert (Hcalls :
    Mock.calls
      (ledger
         (snd (reserveQuantity (Some Mock.service) "V1" 2147483647
                 (Fixtures.context (Some "loc-1") None)
                 Scenarios.bulk_world)))
    = [ Mock.CreateReservationItem
          {| cri_type := "order"; cri_line_item_id := Some "line-1";
             cri_location_id := Some "loc-1"; cri_inventory_item_id := "I1";
             cri_quantity := 4611686014132420608 |} ])
    by (vm_compute; reflexivity).
  split; [reflexivity |]. split; [reflexivity |]. split; [exact Hcalls |].
  rewrite Hcalls. intros [input [[Heq | []] Hq]].
  injection Heq as <-. simpl in Hq. discriminate.
Qed.

(** The requests the test double receives in the scenario above. *)
Example reserveQuantity_bom_requests :
  Mock.calls
    (ledger
       (snd (reserveQuantity (Some Mock.service) "V1" 3
               (Fixtures.context (Some "loc-1") None)
               (Fixtures.bom_world 10))))
  = [ Mock.CreateReservationItem
        {| cri_type := "order"; cri_line_item_id := Some "line-1";
           cri_location_id := Some "loc-1"; cri_inventory_item_id := "I1";
           cri_quantity := 6 |};
      Mock.CreateReservationItem
        {| cri_type := "order"; cri_line_item_id := Some "line-1";
           cri_location_id := Some "loc-1"; cri_inventory_item_id := "I2";
           cri_quantity := 3 |} ].
Proof. reflexivity. Qed.

(** Without a location and without a sales channel the service raises no
    error of its own: the requests go to the ledger with an undefined
    location. *)
Lemma reserveQuantity_without_location {L} (inv : IInventoryService L)
    (w : World L) (variantId : string) (quantity : Z)
    (context : ReserveQuantityContext) :
  links_of w variantId <> [] ->
  locationId context = None ->
  truthy (salesChannelId context) = false ->
  reserveQuantity (Some inv) variantId quantity context w
  = create_all inv
      (map (reservation_input context None quantity) (links_of w variantId))
      w.
Proof.
  intros Hlinks Hl Hsc.
  rewrite (reserveQuantity_ledger_eq inv w variantId quantity context Hlinks).
  rewrite (resolve_locationId_neither w context Hl Hsc). reflexivity.
Qed.

(** C2, as amended. In Ledger Mode, for a variant with at least one linked
    item, [reserveQuantity] fails with [LocationRequired] whenever no
    location is given and the given sales channel resolves to no location,
    however many stock locations exist; the world, the ledger included, is
    left as it was: no reservation is requested. *)
Theorem reserveQuantity_channel_without_location {L}
    (inv : IInventoryService L) (w : World L) (variantId : string)
    (quantity : Z) (context : ReserveQuantityContext) (sc : string) :
  links_of w variantId <> [] ->
  locationId context = None ->
  salesChannelId context = Some sc ->
  sc <> "" ->
  default [] (sales_channel_locations w !! sc) = [] ->
  reserveQuantity (Some inv) variantId quantity context w
  = (Err LocationRequired, w).
Proof.
  intros Hlinks Hl Hsc Hne Hnone.
  rewrite (reserveQuantity_ledger_eq inv w variantId quantity context Hlinks).
  rewrite (resolve_locationId_channel w context sc Hl Hsc Hne), Hnone.
  reflexivity.
Qed.

Lemma reserveQuantity_channel_without_location_witness :
  reserveQuantity (Some Mock.service) "V1" 3
    (Fixtures.context None (Some "sc-empty")) (Fixtures.bom_world 10)
  = (Err LocationRequired, Fixtures.bom_world 10).
Proof.
  apply (reserveQuantity_channel_without_location Mock.service
           (Fixtures.bom_world 10) "V1" 3
           (Fixtures.context None (Some "sc-empty")) "sc-empty").
  - discriminate.
  - reflexivity.
  - reflexivity.
  - discriminate.
  - vm_compute. reflexivity.
Defined.

(** Two stock locations, a variant with link rows, neither a location nor
    a sales channel: the call does not fail with [LocationRequired]; it
    resolves, and the ledger has received two requests with an undefined
    location. *)
Lemma reserveQuantity_location_required_counterexample :
  stock_locations (Fixtures.bom_world 10) = ["loc-1"; "loc-2"]
  /\ links_of (Fixtures.bom_world 10) "V1" <> []
  /\ fst (reserveQuantity (Some Mock.service) "V1" 3
            (Fixtures.context None None) (Fixtures.bom_world 10))
     <> Err LocationRequired
  /\ fst (reserveQuantity (Some Mock.service) "V1" 3
            (Fixtures.context None None) (Fixtures.bom_world 10))
     = Ok tt
  /\ Mock.calls
       (ledger
          (snd (reserveQuantity (Some Mock.service) "V1" 3
                  (Fixtures.context None None) (Fixtures.bom_world 10))))
     = [ Mock.CreateReservationItem
           {| cri_type := "order"; cri_line_item_id := Some "line-1";
              cri_location_id := None; cri_inventory_item_id := "I1";
              cri_quantity := 6 |};
         Mock.CreateReservationItem
           {| cri_type := "order"; cri_line_item_id := Some "line-1";
              cri_location_id := None; cri_inventory_item_id := "I2";
              cri_quantity := 3 |} ].
Proof.
  repeat split; try reflexivity; vm_compute; discriminate.
Qed.

(** ** Attaching an inventory item *)

(** C3, as amended. For an existing variant and an existing inventory
    item: attaching with quantity 0 a pair that is not linked yet fails
    with [InvalidQuantity] and stores nothing; attaching a pair that is
    already linked returns the existing link row and leaves the link table
    as it was, whatever quantity is given, 0 included. *)
Theorem attachInventoryItem_zero_or_existing {L} (inv : IInventoryService L)
    (w : World L) (variantId inventoryItemId : string) (v : ProductVariant) :
  product_variants w !! variantId = Some v ->
  retrieveInventoryItem inv inventoryItemId (ledger w) = Ok tt ->
  (List.find (same_pair variantId inventoryItemId) (variant_inventory w)
   = None ->
   attachInventoryItem (Some inv) variantId inventoryItemId (Some 0) w
   = (Err InvalidQuantity, w))
  /\ (forall existing quantity,
        List.find (same_pair variantId inventoryItemId) (variant_inventory w)
        = Some existing ->
        attachInventoryItem (Some inv) variantId inventoryItemId quantity w
        = (Ok existing, w)).
Proof.
  intros Hv Hitem. split.
  - intros Hnone. unfold attachInventoryItem. run.
    rewrite Hv, Hitem, Hnone. reflexivity.
  - intros existing quantity Hex. unfold attachInventoryItem. run.
    rewrite Hv, Hitem, Hex. reflexivity.
Qed.

Lemma attachInventoryItem_zero_or_existing_witness :
  attachInventoryItem (Some Mock.service) "V1" "I2" (Some 0)
    Fixtures.linked_world = (Err InvalidQuantity, Fixtures.linked_world)
  /\ attachInventoryItem (Some Mock.service) "V1" "I1" (Some 5)
       Fixtures.linked_world
     = (Ok (Fixtures.link "V1" "I1" 2), Fixtures.linked_world).
Proof.
  split.
  - apply (proj1 (attachInventoryItem_zero_or_existing Mock.service
                    Fixtures.linked_world "V1" "I2"
                    (Fixtures.variant false true 0)
                    ltac:(vm_compute; reflexivity) eq_refl)).
    reflexivity.
  - apply (proj2 (attachInventoryItem_zero_or_existing Mock.service
                    Fixtures.linked_world "V1" "I1"
                    (Fixtures.variant false true 0)
                    ltac:(vm_compute; reflexivity) eq_refl)).
    reflexivity.
Defined.

(** Attaching with quantity 0 a pair that is already linked does not fail:
    the existing link row, of quantity 2, is returned. *)
Lemma attachInventoryItem_zero_counterexample :
  product_variants Fixtures.linked_world !! "V1"
  = Some (Fixtures.variant false true 0)
  /\ retrieveInventoryItem Mock.service "I1" (ledger Fixtures.linked_world)
     = Ok tt
  /\ attachInventoryItem (Some Mock.service) "V1" "I1" (Some 0)
       Fixtures.linked_world
     = (Ok (Fixtures.link "V1" "I1" 2), Fixtures.linked_world)
  /\ fst (attachInventoryItem (Some Mock.service) "V1" "I1" (Some 0)
            Fixtures.linked_world) <> Err InvalidQuantity.
Proof.
  repeat split; try reflexivity; vm_compute; discriminate.
Qed.

(** ** Validating stock at a location *)

Section ForOf.

Context {L A : Type} (body : A -> M L unit).
Hypothesis body_reads : forall x w, snd (body x w) = w.

Lemma for_of_reads (xs : list A) (w : World L) :
  snd (for_of xs body w) = w.
Proof.
  induction xs as [| x xs IH]; simpl; [reflexivity |].
  unfold bind. specialize (body_reads x w).
  destruct (body x w) as [[[] | e] w']; simpl in *; subst w'; auto.
Qed.

Lemma for_of_err (xs : list A) (w : World L) (e : Error) :
  fst (for_of xs body w) = Err e ->
  exists x, In x xs /\ fst (body x w) = Err e.
Proof.
  induction xs as [| x xs IH]; simpl; [discriminate |].
  unfold bind. pose proof (body_reads x w) as Hw.
  destruct (body x w) as [[[] | e'] w'] eqn:Hb; simpl in *; subst w'.
  - intros Herr. destruct (IH Herr) as [y [Hin Hy]].
    exists y. split; [right; exact Hin | exact Hy].
  - intros [= ->]. exists x. split; [left; reflexivity |].
    rewrite Hb. reflexivity.
Qed.

Lemma for_of_ok (xs : list A) (w : World L) :
  (forall x, In x xs -> fst (body x w) = Ok tt) ->
  fst (for_of xs body w) = Ok tt.
Proof.
  induction xs as [| x xs IH]; simpl; [reflexivity |].
  intros Hall. unfold bind.
  pose proof (body_reads x w) as Hw.
  pose proof (Hall x (or_introl eq_refl)) as Hx.
  destruct (body x w) as [[[] | e'] w']; simpl in *; subst w';
    [| discriminate].
  apply IH. intros y Hy. apply Hall. right. exact Hy.
Qed.

Lemma for_of_fails (xs : list A) (w : World L) (x : A) :
  In x xs ->
  is_ok (fst (body x w)) = false ->
  is_ok (fst (for_of xs body w)) = false.
Proof.
  induction xs as [| y xs IH]; simpl; [contradiction |].
  intros Hin Hx. unfold bind. pose proof (body_reads y w) as Hw.
  destruct (body y w) as [[[] | e'] w'] eqn:Hb; simpl in *; subst w';
    [| reflexivity].
  destruct Hin as [-> | Hin]; [rewrite Hb in Hx; discriminate |].
  apply IH; assumption.
Qed.

End ForOf.

Lemma Map_bracket_ordinary (m : gmap string ProductVariantInventoryItem)
    (k : string) :
  is_inherited_property k = false -> Map_bracket m k = JSUndefined.
Proof.
  unfold is_inherited_property, Map_bracket. intros H.
  apply orb_false_elim in H as [H Hmeth].
  apply orb_false_elim in H as [Hsize Hproto].
  rewrite Hsize, Hproto, Hmeth. reflexivity.
Qed.

Lemma check_level_eq {L} (m : gmap string ProductVariantInventoryItem)
    (item : LineItem) (lvl : InventoryLevelDTO) (w : World L) :
  check_level m item lvl w
  = (if level_rejected m item lvl
     then Err (InsufficientStock (li_title item)) else Ok tt, w).
Proof.
  unfold check_level, level_rejected.
  destruct (negb _ || _); reflexivity.
Qed.

Lemma for_of_check_level {L} (m : gmap string ProductVariantInventoryItem)
    (item : LineItem) (lvls : list InventoryLevelDTO) (w : World L) :
  for_of lvls (check_level m item) w
  = (if existsb (level_rejected m item) lvls
     then Err (InsufficientStock (li_title item)) else Ok tt, w).
Proof.
  induction lvls as [| lvl lvls IH]; simpl; [reflexivity |].
  unfold bind. rewrite check_level_eq.
  destruct (level_rejected m item lvl); simpl; [reflexivity | exact IH].
Qed.

(** One iteration of the outer loop: the levels are listed and every one
    of them is checked; nothing is written. *)
Lemma validate_item_eq {L} (inv : IInventoryService L) (locationId : string)
    (item : LineItem) (w : World L) :
  validate_item inv locationId item w
  = (match levels_of inv w locationId item with
     | Ok (lvls, _) =>
         if existsb
              (level_rejected
                 (Map_new
                    (map (fun pvi => (pvi_inventory_item_id pvi, pvi))
                       (links_of w (default "" (li_variant_id item)))))
                 item) lvls
         then Err (InsufficientStock (li_title item))
         else Ok tt
     | Err e => Err e
     end, w).
Proof.
  unfold validate_item, levels_of. unfold bind at 1.
  rewrite listByVariant_One. unfold bind, ledger_read.
  destruct (listInventoryLevels inv _ locationId (ledger w))
    as [[lvls n] | e]; [| reflexivity].
  simpl. apply for_of_check_level.
Qed.

Lemma validate_item_reads {L} (inv : IInventoryService L)
    (locationId : string) (item : LineItem) (w : World L) :
  snd (validate_item inv locationId item w) = w.
Proof. rewrite validate_item_eq. reflexivity. Qed.

(** What the bracket read does to the validator: a returned level whose
    inventory item id is not the name of a built-in property of [Map]
    objects makes the call fail, whatever the stocked quantity. *)
Lemma validate_rejects_every_found_level {L} (inv : IInventoryService L)
    (items : list LineItem) (locationId : string) (w : World L)
    (item : LineItem) (lvls : list InventoryLevelDTO) (n : nat)
    (lvl : InventoryLevelDTO) :
  In item items ->
  truthy (li_variant_id item) = true ->
  levels_of inv w locationId item = Ok (lvls, n) ->
  In lvl lvls ->
  is_inherited_property (lvl_inventory_item_id lvl) = false ->
  is_ok (fst (validateInventoryAtLocation (Some inv) items locationId w))
  = false.
Proof.
  intros Hin Htruthy Hlvls Hlvl Hordinary.
  unfold validateInventoryAtLocation.
  apply (for_of_fails _ (validate_item_reads inv locationId) _ w item).
  - apply filter_In. split; assumption.
  - rewrite validate_item_eq, Hlvls. simpl.
    assert (Hex : existsb
                    (level_rejected
                       (Map_new
                          (map (fun pvi => (pvi_inventory_item_id pvi, pvi))
                             (links_of w (default "" (li_variant_id item)))))
                       item) lvls = true).
    { apply existsb_exists. exists lvl. split; [exact Hlvl |].
      unfold level_rejected. rewrite Map_bracket_ordinary by exact Hordinary.
      reflexivity. }
    rewrite Hex. reflexivity.
Qed.

(** C1. The validator is meant to succeed when every linked item found in
    the stock levels of the location holds at least [link.quantity *
    lineItem.quantity]; the code does not. Two units of [V1], which
    consumes three units of [I1], are validated at [loc-1], where the
    ledger returns a stock level of fifty units of [I1]: six are needed,
    fifty are there, and the call rejects with [InsufficientStock] naming
    the line item, because [pviMap[id]] reads a property of the [Map]
    object, [undefined] for this id, where [pviMap.get(id)] would have
    been the link row. *)
Theorem validateInventoryAtLocation_rejects_sufficient_stock :
  links_of (Fixtures.stock_world 50) "V1" = [Fixtures.link "V1" "I1" 3]
  /\ listInventoryLevels Mock.service ["I1"] "loc-1"
       (ledger (Fixtures.stock_world 50))
     = Ok ([Fixtures.level "I1" "loc-1" 50], 1%nat)
  /\ pvi_quantity (Fixtures.link "V1" "I1" 3) * li_quantity Fixtures.tshirt
     <= lvl_stocked_quantity (Fixtures.level "I1" "loc-1" 50)
  /\ pviMap_of (Fixtures.stock_world 50) Fixtures.tshirt !! "I1"
     = Some (Fixtures.link "V1" "I1" 3)
  /\ Map_bracket (pviMap_of (Fixtures.stock_world 50) Fixtures.tshirt) "I1"
     = JSUndefined
  /\ validateInventoryAtLocation (Some Mock.service) [Fixtures.tshirt]
       "loc-1" (Fixtures.stock_world 50)
     = (Err (InsufficientStock "T-shirt"), Fixtures.stock_world 50).
Proof.
  split; [reflexivity |]. split; [reflexivity |].
  split; [simpl; lia |]. split; [vm_compute; reflexivity |].
  split; reflexivity.
Qed.

(** The scenario of the specification: two units of [V1], which consumes
    three units of [I1], against five units at [loc-1]. *)
Example validate_needs_6_has_5 :
  validateInventoryAtLocation (Some Mock.service) [Fixtures.tshirt] "loc-1"
    (Fixtures.stock_world 5)
  = (Err (InsufficientStock "T-shirt"), Fixtures.stock_world 5).
Proof. reflexivity. Qed.

(** [V1] consumes three units of [I1] and [loc-1] has no stock level for
    [I1]: the linked item is missing from the stock levels of the
    location, and the call succeeds. *)
Example validate_missing_level_not_checked :
  links_of Fixtures.missing_world "V1" = [Fixtures.link "V1" "I1" 3]
  /\ listInventoryLevels Mock.service ["I1"] "loc-1"
       (ledger Fixtures.missing_world) = Ok ([], 0%nat)
  /\ validateInventoryAtLocation (Some Mock.service) [Fixtures.tshirt]
       "loc-1" Fixtures.missing_world = (Ok tt, Fixtures.missing_world)
  /\ fst (validateInventoryAtLocation (Some Mock.service) [Fixtures.tshirt]
            "loc-1" Fixtures.missing_world)
     <> Err (InsufficientStock "T-shirt").
Proof.
  repeat split; try reflexivity; vm_compute; discriminate.
Qed.

(** ** The test double honours the listing order *)

Lemma Forall_insert_desc (P : ReservationItemDTO -> Prop)
    (r : ReservationItemDTO) (rs : list ReservationItemDTO) :
  P r -> Forall P rs -> Forall P (Mock.insert_desc r rs).
Proof.
  intros Hr. induction 1 as [| a l Ha Hl IH]; simpl.
  - constructor; [exact Hr | constructor].
  - destruct (res_created_at a <=? res_created_at r).
    + constructor; [exact Hr |]. constructor; assumption.
    + constructor; assumption.
Qed.

Lemma insert_desc_newest_first (r : ReservationItemDTO)
    (rs : list ReservationItemDTO) :
  newest_first rs -> newest_first (Mock.insert_desc r rs).
Proof.
  unfold newest_first. induction 1 as [| a l Hsorted IH Hall]; simpl.
  - constructor; constructor.
  - destruct (res_created_at a <=? res_created_at r) eqn:Hle.
    + apply Z.leb_le in Hle. constructor.
      * constructor; assumption.
      * constructor; [exact Hle |].
        eapply Forall_impl; [exact Hall |].
        simpl. intros b Hb. lia.
    + apply Z.leb_gt in Hle. constructor; [exact IH |].
      apply Forall_insert_desc; [lia | exact Hall].
Qed.

Lemma sort_desc_newest_first (rs : list ReservationItemDTO) :
  newest_first (Mock.sort_desc rs).
Proof.
  induction rs as [| r rs IH]; simpl.
  - constructor.
  - apply insert_desc_newest_first. exact IH.
Qed.

(** The listing of the test double is sorted newest first and its count
    is the number of rows. *)
Lemma Mock_listing_newest_first (lineItemId : string) (s : Mock.State)
    (rs : list ReservationItemDTO) (n : nat) :
  listReservationItems Mock.service lineItemId s = Ok (rs, n) ->
  newest_first rs /\ n = length rs.
Proof.
  simpl. intros [= <- <-]. split; [apply sort_desc_newest_first | reflexivity].
Qed.

(** ** The Simple Mode scenario of the specification

    Ten units, [manage_inventory = true]: reserving four and then adjusting
    by -2 leaves eight. *)
Example simple_mode_reserve_then_adjust :
  product_variants
    (snd (adjustReservationsQuantityByLineItem None "line-1" "V1" "loc-1"
            (-2)
            (snd (reserveQuantity None "V1" 4 (Fixtures.context None None)
                    Fixtures.simple_world))))
  !! "V1" = Some (Fixtures.variant false true 8).
Proof. vm_compute. reflexivity. Qed.

(** ** What the operations leave alone *)

Lemma set_ledger_set_ledger {L} (w : World L) (l1 l2 : L) :
  set_ledger (set_ledger w l1) l2 = set_ledger w l2.
Proof. reflexivity. Qed.

Lemma reads_ret {L A} (a : A) : reads (ret (L := L) a).
Proof. intros w. reflexivity. Qed.

Lemma reads_throw {L A} (e : Error) : reads (throw (L := L) (A := A) e).
Proof. intros w. reflexivity. Qed.

Lemma reads_gets {L A} (f : World L -> A) : reads (gets f).
Proof. intros w. reflexivity. Qed.

Lemma reads_ledger_read {L A} (f : L -> Result A) : reads (ledger_read f).
Proof. intros w. reflexivity. Qed.

Lemma reads_retrieveVariant {L} (id : string) :
  reads (retrieveVariant (L := L) id).
Proof.
  intros w. unfold retrieveVariant.
  destruct (product_variants w !! id); reflexivity.
Qed.

Lemma reads_bind {L A B} (m : M L A) (k : A -> M L B) :
  reads m -> (forall a, reads (k a)) -> reads (bind m k).
Proof.
  intros Hm Hk w. unfold bind. specialize (Hm w).
  destruct (m w) as [[a | e] w']; simpl in *; subst w'; [apply Hk |].
  reflexivity.
Qed.

Lemma reads_Promise_all {L A} (ps : list (M L A)) :
  Forall reads ps -> reads (Promise_all ps).
Proof.
  induction 1 as [| p ps Hp Hps IH]; intros w; simpl; [reflexivity |].
  specialize (Hp w). destruct (p w) as [r w1]. simpl in Hp. subst w1.
  specialize (IH w). destruct (Promise_all ps w) as [rs w2].
  simpl in *. exact IH.
Qed.

Lemma reads_for_of {L A} (xs : list A) (body : A -> M L unit) :
  (forall x, reads (body x)) -> reads (for_of xs body).
Proof.
  intros Hbody w. apply for_of_reads. intros x w'. apply Hbody.
Qed.

Lemma writes_ledger_only_reads {L A} (m : M L A) :
  reads m -> writes_ledger_only m.
Proof. intros Hm w. rewrite Hm. apply set_ledger_same. Qed.

Lemma writes_ledger_only_write {L A} (f : L -> Result A * L) :
  writes_ledger_only (ledger_write f).
Proof.
  intros w. unfold ledger_write. destruct (f (ledger w)) as [r l]. simpl.
  destruct w; reflexivity.
Qed.

Lemma writes_ledger_only_bind {L A B} (m : M L A) (k : A -> M L B) :
  writes_ledger_only m -> (forall a, writes_ledger_only (k a)) ->
  writes_ledger_only (bind m k).
Proof.
  intros Hm Hk w. unfold bind. specialize (Hm w).
  destruct (m w) as [[a | e] w']; simpl in *; [| exact Hm].
  rewrite <- (set_ledger_set_ledger (snd (k a w')) (ledger w') (ledger w)).
  rewrite (Hk a w'). exact Hm.
Qed.

Lemma writes_ledger_only_Promise_all {L A} (ps : list (M L A)) :
  Forall writes_ledger_only ps -> writes_ledger_only (Promise_all ps).
Proof.
  induction 1 as [| p ps Hp Hps IH]; intros w; simpl;
    [apply set_ledger_same |].
  specialize (Hp w). destruct (p w) as [r w1]. simpl in Hp.
  specialize (IH w1). destruct (Promise_all ps w1) as [rs w2].
  simpl in *.
  rewrite <- (set_ledger_set_ledger w2 (ledger w1) (ledger w)).
  rewrite IH. exact Hp.
Qed.

Lemma Forall_map_all {A B} (P : B -> Prop) (f : A -> B) (xs : list A) :
  (forall x, P (f x)) -> Forall P (map f xs).
Proof.
  intros H. induction xs as [| x xs IH]; simpl; constructor; auto.
Qed.

(** Peels one layer of a computation off a [reads] goal. *)
Ltac reads_step :=
  first
    [ apply reads_ret
    | apply reads_throw
    | apply reads_gets
    | apply reads_ledger_read
    | apply reads_retrieveVariant
    | apply reads_bind; [| intros ?]
    | apply reads_Promise_all; apply Forall_map_all; intros ?
    | match goal with
      | |- reads (if ?b then _ else _) => destruct b
      | |- reads (match ?x with _ => _ end) => destruct x
      end ].

(** X11. [confirmInventory] only reads: whatever the mode, the arguments
    and the answers of the ledger, the world after the call is the world
    before it. *)
Theorem confirmInventory_reads {L} (inv : option (IInventoryService L))
    (variantId : option string) (quantity : Z) (sc : option string)
    (w : World L) :
  snd (confirmInventory inv variantId quantity sc w) = w.
Proof.
  revert w. change (reads (confirmInventory inv variantId quantity sc)).
  unfold confirmInventory, listByVariant, listLocations,
    listStockLocationIds.
  repeat reads_step.
Qed.

Lemma writes_ledger_only_reserveQuantity {L} (inv : IInventoryService L)
    (variantId : string) (quantity : Z) (context : ReserveQuantityContext) :
  writes_ledger_only (reserveQuantity (Some inv) variantId quantity context).
Proof.
  unfold reserveQuantity.
  apply writes_ledger_only_bind; [apply writes_ledger_only_reads, reads_gets |].
  intros links. destruct (length links =? 0)%nat;
    [apply writes_ledger_only_reads, reads_ret |].
  apply writes_ledger_only_bind.
  - apply writes_ledger_only_reads. unfold resolve_locationId, listLocations.
    repeat reads_step.
  - intros loc. apply writes_ledger_only_bind;
      [| intros; apply writes_ledger_only_reads, reads_ret].
    apply writes_ledger_only_Promise_all, Forall_map_all.
    intros x. apply writes_ledger_only_write.
Qed.

Lemma writes_ledger_only_adjustReservations {L} (inv : IInventoryService L)
    (lineItemId variantId locationId : string) (quantity : Z) :
  writes_ledger_only
    (adjustReservationsQuantityByLineItem (Some inv) lineItemId variantId
       locationId quantity).
Proof.
  unfold adjustReservationsQuantityByLineItem.
  apply writes_ledger_only_bind;
    [apply writes_ledger_only_reads, reads_ledger_read |].
  intros [rs n]. destruct (negb (n =? 0)%nat);
    [| apply writes_ledger_only_reads, reads_ret].
  destruct (pick_reservation rs locationId quantity) as [r |];
    [| apply writes_ledger_only_reads, reads_throw].
  apply writes_ledger_only_bind.
  - apply writes_ledger_only_reads. unfold retrieve, findOne.
    repeat reads_step.
  - intros link. destruct (_ =? 0); apply writes_ledger_only_write.
Qed.

Lemma writes_ledger_only_adjustInventory {L} (inv : IInventoryService L)
    (adj : string -> string -> Z -> L -> Result unit * L)
    (variantId locationId : string) (quantity : Z) :
  writes_ledger_only
    (adjustInventory (Some inv) adj variantId locationId quantity).
Proof.
  unfold adjustInventory.
  apply writes_ledger_only_bind; [apply writes_ledger_only_reads, reads_gets |].
  intros links. destruct (length links =? 0)%nat;
    [apply writes_ledger_only_reads, reads_ret |].
  apply writes_ledger_only_bind;
    [| intros; apply writes_ledger_only_reads, reads_ret].
  apply writes_ledger_only_Promise_all, Forall_map_all.
  intros x. apply writes_ledger_only_write.
Qed.

(** X18. In Ledger Mode, [reserveQuantity],
    [adjustReservationsQuantityByLineItem], [deleteReservationsByLineItem]
    and [adjustInventory] change nothing but the state of the ledger: the
    variants (their [inventory_quantity] included), the link table, the
    sales channel locations and the stock locations are after the call
    what they were before, whether the call resolves or rejects. *)
Theorem ledger_mode_writes_ledger_only {L} (inv : IInventoryService L)
    (adj : string -> string -> Z -> L -> Result unit * L)
    (lineItemId variantId locationId : string) (quantity : Z)
    (context : ReserveQuantityContext) (w : World L) :
  set_ledger
    (snd (reserveQuantity (Some inv) variantId quantity context w))
    (ledger w) = w
  /\ set_ledger
       (snd (adjustReservationsQuantityByLineItem (Some inv) lineItemId
               variantId locationId quantity w))
       (ledger w) = w
  /\ set_ledger
       (snd (deleteReservationsByLineItem (Some inv) lineItemId variantId
               quantity w))
       (ledger w) = w
  /\ set_ledger
       (snd (adjustInventory (Some inv) adj variantId locationId quantity w))
       (ledger w) = w.
Proof.
  split; [apply writes_ledger_only_reserveQuantity |].
  split; [apply writes_ledger_only_adjustReservations |].
  split; [apply (writes_ledger_only_write _ w) |].
  apply writes_ledger_only_adjustInventory.
Qed.

(** ** Simple Mode: the counter on the variant *)

Lemma set_product_variants_same {L} (w : World L) :
  set_product_variants w (product_variants w) = w.
Proof. destruct w; reflexivity. Qed.

Lemma variant_eta (v : ProductVariant) :
  {| allow_backorder := allow_backorder v;
     manage_inventory := manage_inventory v;
     inventory_quantity := inventory_quantity v |} = v.
Proof. destruct v; reflexivity. Qed.

(** The shape shared by the Simple Mode branches: fetch the variant and,
    unless [skip] says otherwise, store a new [inventory_quantity]. *)
Lemma simple_update_frame {L} (variantId : string)
    (skip : ProductVariant -> bool) (f : ProductVariant -> Z) (w : World L) :
  only_inventory_quantity_of variantId w
    (snd (atomicPhase_
            (variant <- retrieveVariant variantId ;;
             if skip variant then ret tt
             else updateVariant variantId (f variant)) w)).
Proof.
  run. destruct (product_variants w !! variantId) as [v |] eqn:Hv; simpl.
  - destruct (skip v); simpl.
    + repeat split; reflexivity.
    + rewrite Hv. simpl. unfold only_inventory_quantity_of. simpl.
      repeat split; try reflexivity.
      * intros k Hk. apply lookup_insert_ne. congruence.
      * rewrite lookup_insert_eq, Hv. reflexivity.
      * rewrite lookup_insert_eq, Hv. reflexivity.
  - repeat split; reflexivity.
Qed.

(** X15. In Simple Mode, [reserveQuantity],
    [adjustReservationsQuantityByLineItem], [deleteReservationsByLineItem]
    and [adjustInventory] can change the [inventory_quantity] of the given
    variant and nothing else: every other variant, the two flags of the
    variant, the link table, the locations and the ledger state stay as
    they were. *)
Theorem simple_mode_touches_one_counter {L}
    (adj : string -> string -> Z -> L -> Result unit * L)
    (lineItemId variantId locationId : string) (quantity : Z)
    (context : ReserveQuantityContext) (w : World L) :
  only_inventory_quantity_of variantId w
    (snd (reserveQuantity None variantId quantity context w))
  /\ only_inventory_quantity_of variantId w
       (snd (adjustReservationsQuantityByLineItem None lineItemId variantId
               locationId quantity w))
  /\ only_inventory_quantity_of variantId w
       (snd (deleteReservationsByLineItem None lineItemId variantId
               quantity w))
  /\ only_inventory_quantity_of variantId w
       (snd (adjustInventory None adj variantId locationId quantity w)).
Proof.
  split; [| split; [| split]].
  - apply (simple_update_frame variantId (fun _ => false)
             (fun v => inventory_quantity v - quantity)).
  - apply (simple_update_frame variantId
             (fun v => negb (manage_inventory v))
             (fun v => inventory_quantity v - quantity)).
  - apply (simple_update_frame variantId
             (fun v => negb (manage_inventory v))
             (fun v => inventory_quantity v + quantity)).
  - apply (simple_update_frame variantId
             (fun v => negb (manage_inventory v))
             (fun v => inventory_quantity v + quantity)).
Qed.

(** X16. In Simple Mode, each of the four operations on an unknown variant
    rejects with the [NOT_FOUND] error of the variant store and leaves the
    world as it was. *)
Theorem simple_mode_unknown_variant {L}
    (adj : string -> string -> Z -> L -> Result unit * L)
    (lineItemId variantId locationId : string) (quantity : Z)
    (context : ReserveQuantityContext) (w : World L) :
  product_variants w !! variantId = None ->
  reserveQuantity None variantId quantity context w
  = (Err (variant_not_found variantId), w)
  /\ adjustReservationsQuantityByLineItem None lineItemId variantId
       locationId quantity w
     = (Err (variant_not_found variantId), w)
  /\ deleteReservationsByLineItem None lineItemId variantId quantity w
     = (Err (variant_not_found variantId), w)
  /\ adjustInventory None adj variantId locationId quantity w
     = (Err (variant_not_found variantId), w).
Proof.
  intros Hv.
  unfold reserveQuantity, adjustReservationsQuantityByLineItem,
    deleteReservationsByLineItem, adjustInventory.
  run. rewrite Hv. repeat split; reflexivity.
Qed.

Lemma simple_mode_unknown_variant_witness :
  reserveQuantity None "V2" 4 (Fixtures.context None None)
    Fixtures.simple_world
  = (Err (variant_not_found "V2"), Fixtures.simple_world).
Proof.
  apply (simple_mode_unknown_variant (fun _ _ _ l => (Ok tt, l))
           "line-1" "V2" "loc-1" 4 (Fixtures.context None None)
           Fixtures.simple_world).
  vm_compute. reflexivity.
Defined.

(** X12. In Simple Mode, for a variant that manages its inventory and does
    not allow backorders, [confirmInventory] answers whether the requested
    quantity is at most the [inventory_quantity] of the variant; the sales
    channel plays no part. *)
Theorem simple_mode_confirmInventory {L} (w : World L) (variantId : string)
    (v : ProductVariant) (quantity : Z) (sc : option string) :
  variantId <> "" ->
  product_variants w !! variantId = Some v ->
  allow_backorder v = false ->
  manage_inventory v = true ->
  confirmInventory None (Some variantId) quantity sc w
  = (Ok (quantity <=? inventory_quantity v), w)
  /\ (fst (confirmInventory None (Some variantId) quantity sc w) = Ok true
      <-> quantity <= inventory_quantity v).
Proof.
  intros Hid Hv Hb Hm.
  assert (Heq : confirmInventory None (Some variantId) quantity sc w
                = (Ok (quantity <=? inventory_quantity v), w)).
  { unfold confirmInventory. apply String.eqb_neq in Hid. rewrite Hid.
    run. rewrite Hv, Hb, Hm. reflexivity. }
  split; [exact Heq |]. rewrite Heq. simpl. split.
  - intros [= H]. apply Z.leb_le. exact H.
  - intros H. apply Z.leb_le in H. rewrite H. reflexivity.
Qed.

Lemma simple_mode_confirmInventory_witness :
  confirmInventory None (Some "V1") 11 (Some "sc-1") Fixtures.simple_world
  = (Ok false, Fixtures.simple_world)
  /\ confirmInventory None (Some "V1") 10 None Fixtures.simple_world
     = (Ok true, Fixtures.simple_world).
Proof.
  split.
  - apply (proj1 (simple_mode_confirmInventory Fixtures.simple_world "V1"
                    (Fixtures.variant false true 10) 11 (Some "sc-1")
                    ltac:(discriminate) ltac:(vm_compute; reflexivity)
                    eq_refl eq_refl)).
  - apply (proj1 (simple_mode_confirmInventory Fixtures.simple_world "V1"
                    (Fixtures.variant false true 10) 10 None
                    ltac:(discriminate) ltac:(vm_compute; reflexivity)
                    eq_refl eq_refl)).
Defined.

(** The world after a Simple Mode update of [variantId] to quantity [q]. *)
Lemma simple_update_run {L} (variantId : string) (v : ProductVariant)
    (q : Z) (w : World L) :
  product_variants w !! variantId = Some v ->
  updateVariant variantId q w
  = (Ok tt,
     set_product_variants w
       (<[variantId := {| allow_backorder := allow_backorder v;
                          manage_inventory := manage_inventory v;
                          inventory_quantity := q |}]>
          (product_variants w))).
Proof. intros Hv. unfold updateVariant. rewrite Hv. reflexivity. Qed.

(** X14. In Simple Mode, releasing what was reserved restores the world
    exactly when the variant manages its inventory; for a variant with
    [manage_inventory = false] the release is skipped and the
    [inventory_quantity] stays lowered by the reserved quantity. *)
Theorem simple_mode_reserve_then_release {L} (w : World L)
    (lineItemId variantId : string) (v : ProductVariant) (quantity : Z)
    (context : ReserveQuantityContext) :
  product_variants w !! variantId = Some v ->
  let w1 := snd (reserveQuantity None variantId quantity context w) in
  let w2 :=
    snd (deleteReservationsByLineItem None lineItemId variantId quantity
           w1) in
  fst (deleteReservationsByLineItem None lineItemId variantId quantity w1)
  = Ok tt
  /\ (manage_inventory v = true -> w2 = w)
  /\ (manage_inventory v = false ->
      inventory_quantity <$> product_variants w2 !! variantId
      = Some (inventory_quantity v - quantity)).
Proof.
  intros Hv w1 w2. subst w2 w1.
  unfold reserveQuantity, deleteReservationsByLineItem.
  run. rewrite Hv. simpl. rewrite Hv. simpl.
  rewrite lookup_insert_eq. simpl.
  destruct (manage_inventory v) eqn:Hm; simpl.
  - rewrite lookup_insert_eq. simpl. split; [reflexivity |].
    split; [| discriminate]. intros _.
    unfold set_product_variants. simpl.
    rewrite insert_insert_eq.
    replace (inventory_quantity v - quantity + quantity)
      with (inventory_quantity v) by lia.
    rewrite <- Hm, variant_eta, (insert_id _ _ _ Hv).
    destruct w; reflexivity.
  - split; [reflexivity |]. split; [discriminate |]. intros _.
    rewrite lookup_insert_eq. reflexivity.
Qed.

Lemma simple_mode_reserve_then_release_witness :
  snd (deleteReservationsByLineItem None "line-1" "V1" 4
         (snd (reserveQuantity None "V1" 4 (Fixtures.context None None)
                 Fixtures.simple_world)))
  = Fixtures.simple_world
  /\ inventory_quantity
     <$> product_variants
           (snd (deleteReservationsByLineItem None "line-1" "V1" 4
                   (snd (reserveQuantity None "V1" 4
                           (Fixtures.context None None)
                           Fixtures.unmanaged_world)))) !! "V1"
     = Some 6.
Proof.
  split.
  - apply (simple_mode_reserve_then_release Fixtures.simple_world "line-1"
             "V1" (Fixtures.variant false true 10) 4
             (Fixtures.context None None) ltac:(vm_compute; reflexivity)).
    reflexivity.
  - apply (simple_mode_reserve_then_release Fixtures.unmanaged_world
             "line-1" "V1" (Fixtures.variant false false 10) 4
             (Fixtures.context None None) ltac:(vm_compute; reflexivity)).
    reflexivity.
Defined.

(** X17. In Simple Mode, for a variant that manages its inventory, two
    adjustments of a line item in a row amount to one adjustment by the
    sum, and an adjustment followed by [adjustInventory] of the same
    quantity restores the world. *)
Theorem simple_mode_adjustments_compose {L}
    (adj : string -> string -> Z -> L -> Result unit * L) (w : World L)
    (lineItemId variantId locationId : string) (v : ProductVariant)
    (q1 q2 : Z) :
  product_variants w !! variantId = Some v ->
  manage_inventory v = true ->
  adjustReservationsQuantityByLineItem None lineItemId variantId locationId
    q2
    (snd (adjustReservationsQuantityByLineItem None lineItemId variantId
            locationId q1 w))
  = adjustReservationsQuantityByLineItem None lineItemId variantId
      locationId (q1 + q2) w
  /\ adjustInventory None adj variantId locationId q1
       (snd (adjustReservationsQuantityByLineItem None lineItemId variantId
               locationId q1 w))
     = (Ok tt, w).
Proof.
  intros Hv Hm.
  unfold adjustReservationsQuantityByLineItem, adjustInventory.
  run. rewrite Hv, Hm. simpl. rewrite Hv. simpl.
  rewrite lookup_insert_eq. simpl. rewrite Hm. simpl.
  rewrite lookup_insert_eq. simpl.
  unfold set_product_variants. simpl. rewrite !insert_insert_eq.
  split.
  - replace (inventory_quantity v - q1 - q2)
      with (inventory_quantity v - (q1 + q2)) by lia.
    reflexivity.
  - replace (inventory_quantity v - q1 + q1)
      with (inventory_quantity v) by lia.
    rewrite <- Hm at 1. rewrite variant_eta, (insert_id _ _ _ Hv).
    destruct w; reflexivity.
Qed.

Lemma simple_mode_adjustments_compose_witness :
  adjustReservationsQuantityByLineItem None "line-1" "V1" "loc-1" (-2)
    (snd (adjustReservationsQuantityByLineItem None "line-1" "V1" "loc-1" 4
            Fixtures.simple_world))
  = adjustReservationsQuantityByLineItem None "line-1" "V1" "loc-1"
      (4 + -2) Fixtures.simple_world.
Proof.
  apply (proj1 (simple_mode_adjustments_compose (fun _ _ _ l => (Ok tt, l))
                  Fixtures.simple_world "line-1" "V1" "loc-1"
                  (Fixtures.variant false true 10) 4 (-2)
                  ltac:(vm_compute; reflexivity) eq_refl)).
Defined.

(** ** The link table *)

Lemma find_app {A} (f : A -> bool) (l l' : list A) :
  List.find f (l ++ l')
  = match List.find f l with
    | Some x => Some x
    | None => List.find f l'
    end.
Proof.
  induction l as [| a l IH]; simpl; [reflexivity |].
  destruct (f a); [reflexivity | exact IH].
Qed.

Lemma find_all_false {A} (f : A -> bool) (l : list A) :
  (forall x, In x l -> f x = false) -> List.find f l = None.
Proof.
  induction l as [| a l IH]; simpl; intros H; [reflexivity |].
  rewrite (H a (or_introl eq_refl)). apply IH. intros x Hx. apply H.
  right. exact Hx.
Qed.

Lemma same_pair_pair_of (variantId inventoryItemId : string)
    (row : ProductVariantInventoryItem) :
  same_pair variantId inventoryItemId row = true
  <-> pair_of row = (variantId, inventoryItemId).
Proof.
  unfold same_pair, pair_of. rewrite andb_true_iff, !String.eqb_eq.
  split; [intros [-> ->]; reflexivity | intros [= -> ->]; auto].
Qed.

Lemma same_pair_false (variantId inventoryItemId : string)
    (row : ProductVariantInventoryItem) :
  pair_of row <> (variantId, inventoryItemId) ->
  same_pair variantId inventoryItemId row = false.
Proof.
  intros Hne. destruct (same_pair variantId inventoryItemId row) eqn:Hs;
    [| reflexivity].
  apply same_pair_pair_of in Hs. contradiction.
Qed.

Lemma pvi_eqb_eq (a b : ProductVariantInventoryItem) :
  pvi_eqb a b = true <-> a = b.
Proof.
  unfold pvi_eqb. rewrite !andb_true_iff, !String.eqb_eq, Z.eqb_eq.
  destruct a, b; simpl. split.
  - intros [[-> ->] ->]. reflexivity.
  - intros [= -> -> ->]. auto.
Qed.

Lemma pvi_eqb_refl (a : ProductVariantInventoryItem) : pvi_eqb a a = true.
Proof. apply pvi_eqb_eq. reflexivity. Qed.

(** The row [findOne] finds splits the table; [remove] takes it out. *)
Lemma remove_row_find (variantId inventoryItemId : string)
    (rows : list ProductVariantInventoryItem)
    (existing : ProductVariantInventoryItem) :
  List.find (same_pair variantId inventoryItemId) rows = Some existing ->
  exists pre post,
    rows = pre ++ existing :: post
    /\ (forall row, In row pre ->
                    same_pair variantId inventoryItemId row = false)
    /\ remove_row existing rows = pre ++ post.
Proof.
  induction rows as [| r rs IH]; simpl; [discriminate |].
  destruct (same_pair variantId inventoryItemId r) eqn:Hr.
  - intros [= <-]. exists [], rs. rewrite pvi_eqb_refl.
    repeat split. intros row [].
  - intros Hfind. destruct (IH Hfind) as [pre [post [-> [Hpre Hrm]]]].
    exists (r :: pre), post. split; [reflexivity |]. split.
    + intros row [<- | Hin]; [exact Hr | apply Hpre; exact Hin].
    + destruct (pvi_eqb r existing) eqn:Heq.
      * apply pvi_eqb_eq in Heq. subst r.
        apply find_some in Hfind as [_ Hex]. congruence.
      * simpl. rewrite Hrm. reflexivity.
Qed.

(** Every outcome of [attachInventoryItem]. *)
Lemma attach_outcome {L} (inv : option (IInventoryService L))
    (variantId inventoryItemId : string) (quantity : option Z)
    (w : World L) :
  match attachInventoryItem inv variantId inventoryItemId quantity w with
  | (Err _, w') => w' = w
  | (Ok row, w') =>
      pair_of row = (variantId, inventoryItemId)
      /\ is_Some (product_variants w !! variantId)
      /\ (exists i, inv = Some i
                    /\ is_ok (retrieveInventoryItem i inventoryItemId
                                (ledger w)) = true)
      /\ ((List.find (same_pair variantId inventoryItemId)
             (variant_inventory w) = Some row /\ w' = w)
          \/ (List.find (same_pair variantId inventoryItemId)
                (variant_inventory w) = None
              /\ row = {| pvi_variant_id := variantId;
                          pvi_inventory_item_id := inventoryItemId;
                          pvi_quantity := quantity_to_store quantity |}
              /\ w' = set_variant_inventory w (variant_inventory w ++ [row])))
  end.
Proof.
  unfold attachInventoryItem. run.
  destruct (product_variants w !! variantId) as [v |] eqn:Hv;
    [| reflexivity].
  destruct inv as [i |]; [| reflexivity]. simpl.
  destruct (retrieveInventoryItem i inventoryItemId (ledger w)) as [[] | e]
    eqn:Hitem; [| reflexivity].
  destruct (List.find (same_pair variantId inventoryItemId)
              (variant_inventory w)) as [existing |] eqn:Hfind.
  - simpl. apply find_some in Hfind as Hex. destruct Hex as [_ Hex].
    apply same_pair_pair_of in Hex.
    repeat split; eauto.
    exists i. rewrite Hitem. auto.
  - destruct quantity as [q |]; simpl.
    + destruct (q <? 1); simpl; [reflexivity |].
      repeat split; eauto. exists i. rewrite Hitem. auto.
    + repeat split; eauto. exists i. rewrite Hitem. auto.
Qed.

(** X1. Attaching a pair that is not linked yet, with a quantity of at
    least 1 or with none (which stands for 1), appends exactly one link row
    holding that quantity and returns it; [retrieve] then finds that row. *)
Theorem attach_fresh_then_retrieve {L} (inv : IInventoryService L)
    (w : World L) (variantId inventoryItemId : string) (v : ProductVariant)
    (quantity : option Z) :
  product_variants w !! variantId = Some v ->
  retrieveInventoryItem inv inventoryItemId (ledger w) = Ok tt ->
  List.find (same_pair variantId inventoryItemId) (variant_inventory w)
  = None ->
  (forall q, quantity = Some q -> 1 <= q) ->
  let row := {| pvi_variant_id := variantId;
                pvi_inventory_item_id := inventoryItemId;
                pvi_quantity := quantity_to_store quantity |} in
  let w' := set_variant_inventory w (variant_inventory w ++ [row]) in
  attachInventoryItem (Some inv) variantId inventoryItemId quantity w
  = (Ok row, w')
  /\ retrieve inventoryItemId variantId w' = (Ok row, w').
Proof.
  intros Hv Hitem Hfind Hq row w'. split.
  - unfold attachInventoryItem. run. rewrite Hv, Hitem, Hfind.
    destruct quantity as [q |]; simpl; [| reflexivity].
    specialize (Hq q eq_refl). apply Z.ltb_ge in Hq. rewrite Hq.
    reflexivity.
  - unfold retrieve. run. rewrite find_app, Hfind. simpl.
    unfold same_pair. simpl. rewrite !String.eqb_refl. reflexivity.
Qed.

Lemma attach_fresh_then_retrieve_witness :
  attachInventoryItem (Some Mock.service) "V1" "I2" None
    Fixtures.linked_world
  = (Ok (Fixtures.link "V1" "I2" 1),
     set_variant_inventory Fixtures.linked_world
       [Fixtures.link "V1" "I1" 2; Fixtures.link "V1" "I2" 1]).
Proof.
  apply (proj1 (attach_fresh_then_retrieve Mock.service
                  Fixtures.linked_world "V1" "I2"
                  (Fixtures.variant false true 0) None
                  ltac:(vm_compute; reflexivity) eq_refl eq_refl
                  ltac:(discriminate))).
Defined.

(** X2. [attachInventoryItem] leaves the world as it was whenever it
    rejects; when it resolves, the row it returns has the requested pair
    and is the row [findOne] finds afterwards, and the world is either
    unchanged or differs by that one row appended to the link table. *)
Theorem attach_changes_link_table_only {L}
    (inv : option (IInventoryService L))
    (variantId inventoryItemId : string) (quantity : option Z)
    (w : World L) :
  let r := attachInventoryItem inv variantId inventoryItemId quantity w in
  (is_ok (fst r) = false -> snd r = w)
  /\ (forall row,
        fst r = Ok row ->
        pair_of row = (variantId, inventoryItemId)
        /\ List.find (same_pair variantId inventoryItemId)
             (variant_inventory (snd r)) = Some row
        /\ (snd r = w
            \/ snd r
               = set_variant_inventory w (variant_inventory w ++ [row]))).
Proof.
  intros r. subst r.
  pose proof (attach_outcome inv variantId inventoryItemId quantity w) as H.
  destruct (attachInventoryItem inv variantId inventoryItemId quantity w)
    as [[row | e] w']; simpl in *.
  - split; [discriminate |]. intros row' [= <-].
    destruct H as [Hpair [_ [_ [[Hfind ->] | [Hfind [Hrow ->]]]]]].
    + auto.
    + split; [exact Hpair |]. split; [| auto].
      simpl. rewrite find_app, Hfind. simpl.
      apply same_pair_pair_of in Hpair. rewrite Hpair. reflexivity.
  - split; [auto | discriminate].
Qed.

Lemma attach_changes_link_table_only_witness :
  snd (attachInventoryItem (Some Mock.service) "V9" "I1" (Some 2)
         Fixtures.linked_world) = Fixtures.linked_world.
Proof.
  apply (proj1 (attach_changes_link_table_only (Some Mock.service) "V9" "I1"
                  (Some 2) Fixtures.linked_world)).
  reflexivity.
Defined.

(** X3. Attaching is idempotent: once a call has resolved, attaching the
    same pair again, with whatever quantity, returns the same row and
    changes nothing. *)
Theorem attach_idempotent {L} (inv : option (IInventoryService L))
    (variantId inventoryItemId : string) (q1 q2 : option Z)
    (w w1 : World L) (row : ProductVariantInventoryItem) :
  attachInventoryItem inv variantId inventoryItemId q1 w = (Ok row, w1) ->
  attachInventoryItem inv variantId inventoryItemId q2 w1 = (Ok row, w1).
Proof.
  intros H1.
  pose proof (attach_outcome inv variantId inventoryItemId q1 w) as H.
  rewrite H1 in H.
  destruct H as [Hpair [[v Hv] [[i [-> Hitem]] Hcases]]].
  assert (Hfind1 : List.find (same_pair variantId inventoryItemId)
                     (variant_inventory w1) = Some row
                   /\ product_variants w1 = product_variants w
                   /\ ledger w1 = ledger w).
  { destruct Hcases as [[Hfind ->] | [Hfind [_ ->]]]; [auto |].
    simpl. rewrite find_app, Hfind. simpl.
    apply same_pair_pair_of in Hpair. rewrite Hpair. auto. }
  destruct Hfind1 as [Hfind1 [Hpv Hl]].
  unfold attachInventoryItem. run. rewrite Hpv, Hv, Hl.
  destruct (retrieveInventoryItem i inventoryItemId (ledger w)) as [[] | e];
    [| discriminate].
  rewrite Hfind1. reflexivity.
Qed.

Lemma attach_idempotent_witness :
  attachInventoryItem (Some Mock.service) "V1" "I2" (Some 0)
    (set_variant_inventory Fixtures.linked_world
       [Fixtures.link "V1" "I1" 2; Fixtures.link "V1" "I2" 4])
  = (Ok (Fixtures.link "V1" "I2" 4),
     set_variant_inventory Fixtures.linked_world
       [Fixtures.link "V1" "I1" 2; Fixtures.link "V1" "I2" 4]).
Proof.
  apply (attach_idempotent (Some Mock.service) "V1" "I2" (Some 4) (Some 0)
           Fixtures.linked_world).
  reflexivity.
Defined.

(** X4. [attachInventoryItem] keeps the link table free of duplicates: if
    no two rows share a (variant, inventory item) pair before the call,
    none do after it. *)
Theorem attach_keeps_unique_pairs {L} (inv : option (IInventoryService L))
    (variantId inventoryItemId : string) (quantity : option Z)
    (w : World L) :
  unique_pairs (variant_inventory w) ->
  unique_pairs
    (variant_inventory
       (snd (attachInventoryItem inv variantId inventoryItemId quantity w))).
Proof.
  intros Huniq.
  pose proof (attach_outcome inv variantId inventoryItemId quantity w) as H.
  destruct (attachInventoryItem inv variantId inventoryItemId quantity w)
    as [[row | e] w']; simpl in *; [| subst w'; exact Huniq].
  destruct H as [Hpair [_ [_ [[_ ->] | [Hfind [_ ->]]]]]]; [exact Huniq |].
  simpl. unfold unique_pairs in *. rewrite map_app. simpl.
  apply NoDup_app. split; [exact Huniq |]. split.
  - intros p Hp Hin. apply list_elem_of_In in Hp.
    apply list_elem_of_In in Hin. destruct Hin as [<- | []].
    apply in_map_iff in Hp as [r [Hr Hin]].
    pose proof (find_none _ _ Hfind r Hin) as Hno.
    assert (same_pair variantId inventoryItemId r = true)
      by (apply same_pair_pair_of; congruence).
    congruence.
  - apply NoDup_singleton.
Qed.

Lemma attach_keeps_unique_pairs_witness :
  unique_pairs
    (variant_inventory
       (snd (attachInventoryItem (Some Mock.service) "V1" "I2" (Some 4)
               Fixtures.linked_world))).
Proof.
  apply attach_keeps_unique_pairs.
  unfold unique_pairs. simpl. repeat constructor. intros H. inversion H.
Defined.

(** Every outcome of [detachInventoryItem]. *)
Lemma detach_outcome {L} (variantId inventoryItemId : string) (w : World L) :
  match List.find (same_pair variantId inventoryItemId)
          (variant_inventory w) with
  | None => detachInventoryItem variantId inventoryItemId w = (Ok tt, w)
  | Some existing =>
      exists pre post,
        variant_inventory w = pre ++ existing :: post
        /\ (forall row, In row pre ->
                        same_pair variantId inventoryItemId row = false)
        /\ detachInventoryItem variantId inventoryItemId w
           = (Ok tt, set_variant_inventory w (pre ++ post))
  end.
Proof.
  unfold detachInventoryItem. run.
  destruct (List.find (same_pair variantId inventoryItemId)
              (variant_inventory w)) as [existing |] eqn:Hfind;
    [| reflexivity].
  destruct (remove_row_find _ _ _ _ Hfind) as [pre [post [Hrows [Hpre Hrm]]]].
  exists pre, post. split; [exact Hrows |]. split; [exact Hpre |].
  unfold remove. rewrite Hrm. reflexivity.
Qed.

(** X5. [detachInventoryItem] never rejects. When the pair is not linked
    the world stays as it was; when it is, the first row of the pair
    leaves the link table and every other row stays in place. *)
Theorem detach_removes_first_row {L} (variantId inventoryItemId : string)
    (w : World L) :
  fst (detachInventoryItem variantId inventoryItemId w) = Ok tt
  /\ (List.find (same_pair variantId inventoryItemId) (variant_inventory w)
      = None ->
      snd (detachInventoryItem variantId inventoryItemId w) = w)
  /\ (forall existing,
        List.find (same_pair variantId inventoryItemId)
          (variant_inventory w) = Some existing ->
        exists pre post,
          variant_inventory w = pre ++ existing :: post
          /\ (forall row, In row pre -> pair_of row
                                        <> (variantId, inventoryItemId))
          /\ snd (detachInventoryItem variantId inventoryItemId w)
             = set_variant_inventory w (pre ++ post)).
Proof.
  pose proof (detach_outcome variantId inventoryItemId w) as H.
  destruct (List.find (same_pair variantId inventoryItemId)
              (variant_inventory w)) as [existing |].
  - destruct H as [pre [post [Hrows [Hpre Hrun]]]]. rewrite Hrun.
    split; [reflexivity |]. split; [discriminate |].
    intros existing' [= <-]. exists pre, post.
    split; [exact Hrows |]. split; [| reflexivity].
    intros row Hin Hpair. apply same_pair_pair_of in Hpair.
    rewrite (Hpre row Hin) in Hpair. discriminate.
  - rewrite H. split; [reflexivity |]. split; [reflexivity | discriminate].
Qed.

Lemma detach_removes_first_row_witness :
  snd (detachInventoryItem "V1" "I2" Fixtures.linked_world)
  = Fixtures.linked_world.
Proof.
  apply (proj1 (proj2 (detach_removes_first_row "V1" "I2"
                         Fixtures.linked_world))).
  reflexivity.
Defined.

Lemma remove_row_appended (row : ProductVariantInventoryItem)
    (rows : list ProductVariantInventoryItem) :
  (forall x, In x rows -> pvi_eqb x row = false) ->
  remove_row row (rows ++ [row]) = rows.
Proof.
  induction rows as [| r rs IH]; simpl; intros Hnone.
  - rewrite pvi_eqb_refl. reflexivity.
  - rewrite (Hnone r (or_introl eq_refl)). rewrite IH; [reflexivity |].
    intros x Hx. apply Hnone. right. exact Hx.
Qed.

(** X6. Detaching undoes attaching: after a pair that was not linked has
    been attached, detaching it restores the world as it was before. *)
Theorem attach_then_detach {L} (inv : option (IInventoryService L))
    (variantId inventoryItemId : string) (quantity : option Z)
    (w w1 : World L) (row : ProductVariantInventoryItem) :
  List.find (same_pair variantId inventoryItemId) (variant_inventory w)
  = None ->
  attachInventoryItem inv variantId inventoryItemId quantity w
  = (Ok row, w1) ->
  detachInventoryItem variantId inventoryItemId w1 = (Ok tt, w).
Proof.
  intros Hfind Hattach.
  pose proof (attach_outcome inv variantId inventoryItemId quantity w) as H.
  rewrite Hattach in H.
  destruct H as [Hpair [_ [_ [[Hsome _] | [_ [_ ->]]]]]]; [congruence |].
  apply same_pair_pair_of in Hpair.
  unfold detachInventoryItem. run. rewrite find_app, Hfind. simpl.
  rewrite Hpair. unfold remove. simpl.
  assert (Hrm : remove_row row (variant_inventory w ++ [row])
                = variant_inventory w).
  { apply remove_row_appended. intros x Hx.
    destruct (pvi_eqb x row) eqn:Heq; [| reflexivity].
    apply pvi_eqb_eq in Heq. subst x.
    rewrite (find_none _ _ Hfind row Hx) in Hpair. discriminate. }
  rewrite Hrm. destruct w; reflexivity.
Qed.

Lemma attach_then_detach_witness :
  detachInventoryItem "V1" "I2"
    (set_variant_inventory Fixtures.linked_world
       [Fixtures.link "V1" "I1" 2; Fixtures.link "V1" "I2" 4])
  = (Ok tt, Fixtures.linked_world).
Proof.
  apply (attach_then_detach (Some Mock.service) "V1" "I2" (Some 4)
           Fixtures.linked_world _ (Fixtures.link "V1" "I2" 4));
    reflexivity.
Defined.

(** X7. When no two rows of the link table share a pair, detaching a pair
    leaves it unlinked: [findOne] finds nothing, [retrieve] rejects with
    [NOT_FOUND], and the table is still free of duplicates. *)
Theorem detach_unlinks {L} (variantId inventoryItemId : string)
    (w : World L) :
  unique_pairs (variant_inventory w) ->
  let w' := snd (detachInventoryItem variantId inventoryItemId w) in
  List.find (same_pair variantId inventoryItemId) (variant_inventory w')
  = None
  /\ retrieve inventoryItemId variantId w'
     = (Err (MedusaError NOT_FOUND
               ("Inventory item with id " +:+ inventoryItemId
                +:+ " not found")), w')
  /\ unique_pairs (variant_inventory w').
Proof.
  intros Huniq w'.
  assert (H : List.find (same_pair variantId inventoryItemId)
                (variant_inventory w') = None
              /\ unique_pairs (variant_inventory w')).
  { subst w'.
    pose proof (detach_outcome variantId inventoryItemId w) as H.
    destruct (List.find (same_pair variantId inventoryItemId)
                (variant_inventory w)) as [existing |] eqn:Hfind.
    - destruct H as [pre [post [Hrows [Hpre ->]]]]. simpl.
      unfold unique_pairs in *. rewrite Hrows, map_app in Huniq.
      simpl in Huniq. apply NoDup_ListNoDup in Huniq. split.
      + apply find_all_false. intros x Hx.
        apply in_app_or in Hx as [Hx | Hx]; [apply Hpre; exact Hx |].
        apply same_pair_false. intros Hpair.
        apply NoDup_remove_2 in Huniq. apply Huniq.
        apply in_or_app. right.
        apply find_some in Hfind as [_ Hex].
        apply same_pair_pair_of in Hex. rewrite Hex, <- Hpair.
        apply in_map. exact Hx.
      + rewrite map_app. apply NoDup_ListNoDup.
        apply NoDup_remove_1 in Huniq. exact Huniq.
    - rewrite H. simpl. auto. }
  destruct H as [Hnone Huniq']. split; [exact Hnone |].
  split; [| exact Huniq'].
  unfold retrieve. run. rewrite Hnone. reflexivity.
Qed.

Lemma detach_unlinks_witness :
  List.find (same_pair "V1" "I1")
    (variant_inventory
       (snd (detachInventoryItem "V1" "I1" Fixtures.linked_world)))
  = None.
Proof.
  apply (detach_unlinks "V1" "I1" Fixtures.linked_world).
  unfold unique_pairs. simpl. repeat constructor. intros H. inversion H.
Defined.

(** X8. Attaching or detaching a pair leaves every other pair as it was:
    [findOne] for another (variant, inventory item) pair finds after the
    call the row it found before it. *)
Theorem other_pairs_unaffected {L} (inv : option (IInventoryService L))
    (variantId inventoryItemId variantId' inventoryItemId' : string)
    (quantity : option Z) (w : World L) :
  (variantId', inventoryItemId') <> (variantId, inventoryItemId) ->
  List.find (same_pair variantId' inventoryItemId')
    (variant_inventory
       (snd (attachInventoryItem inv variantId inventoryItemId quantity w)))
  = List.find (same_pair variantId' inventoryItemId') (variant_inventory w)
  /\ List.find (same_pair variantId' inventoryItemId')
       (variant_inventory
          (snd (detachInventoryItem variantId inventoryItemId w)))
     = List.find (same_pair variantId' inventoryItemId')
         (variant_inventory w).
Proof.
  intros Hne. split.
  - pose proof (attach_outcome inv variantId inventoryItemId quantity w)
      as H.
    destruct (attachInventoryItem inv variantId inventoryItemId quantity w)
      as [[row | e] w']; simpl in *; [| subst w'; reflexivity].
    destruct H as [Hpair [_ [_ [[_ ->] | [_ [_ ->]]]]]]; [reflexivity |].
    simpl. rewrite find_app. simpl.
    rewrite (same_pair_false variantId' inventoryItemId' row)
      by congruence.
    destruct (List.find _ (variant_inventory w)); reflexivity.
  - pose proof (detach_outcome variantId inventoryItemId w) as H.
    destruct (List.find (same_pair variantId inventoryItemId)
                (variant_inventory w)) as [existing |] eqn:Hfind.
    + destruct H as [pre [post [Hrows [_ ->]]]]. simpl.
      rewrite Hrows, !find_app. simpl.
      apply find_some in Hfind as [_ Hex].
      apply same_pair_pair_of in Hex.
      rewrite (same_pair_false variantId' inventoryItemId' existing)
        by congruence.
      reflexivity.
    + rewrite H. reflexivity.
Qed.

Lemma other_pairs_unaffected_witness :
  List.find (same_pair "V1" "I1")
    (variant_inventory
       (snd (attachInventoryItem (Some Mock.service) "V1" "I2" (Some 4)
               Fixtures.linked_world)))
  = Some (Fixtures.link "V1" "I1" 2).
Proof.
  rewrite (proj1 (other_pairs_unaffected (Some Mock.service) "V1" "I2" "V1"
                    "I1" (Some 4) Fixtures.linked_world
                    ltac:(discriminate))).
  reflexivity.
Defined.

(** X9. [retrieve] only reads. It resolves with the first row of the
    requested pair, a row of the link table; it rejects, with a
    [NOT_FOUND] error that names the inventory item, exactly when no row
    of the table has the pair. *)
Theorem retrieve_finds_the_pair {L} (inventoryItemId variantId : string)
    (w : World L) :
  snd (retrieve inventoryItemId variantId w) = w
  /\ (forall row,
        fst (retrieve inventoryItemId variantId w) = Ok row ->
        In row (variant_inventory w)
        /\ pair_of row = (variantId, inventoryItemId))
  /\ (fst (retrieve inventoryItemId variantId w)
      = Err (MedusaError NOT_FOUND
               ("Inventory item with id " +:+ inventoryItemId
                +:+ " not found"))
      <-> forall row, In row (variant_inventory w) ->
                      pair_of row <> (variantId, inventoryItemId)).
Proof.
  unfold retrieve. run.
  destruct (List.find (same_pair variantId inventoryItemId)
              (variant_inventory w)) as [row |] eqn:Hfind; simpl.
  - apply find_some in Hfind as [Hin Hpair].
    apply same_pair_pair_of in Hpair.
    split; [reflexivity |]. split.
    + intros row' [= <-]. auto.
    + split; [discriminate |]. intros Hnone.
      destruct (Hnone row Hin Hpair).
  - split; [reflexivity |]. split; [discriminate |].
    split; [| reflexivity]. intros _ row Hin Hpair.
    apply same_pair_pair_of in Hpair.
    rewrite (find_none _ _ Hfind row Hin) in Hpair. discriminate.
Qed.

Lemma retrieve_finds_the_pair_witness :
  In (Fixtures.link "V1" "I1" 2) (variant_inventory Fixtures.linked_world)
  /\ pair_of (Fixtures.link "V1" "I1" 2) = ("V1", "I1").
Proof.
  apply (proj1 (proj2 (retrieve_finds_the_pair "I1" "V1"
                         Fixtures.linked_world))).
  reflexivity.
Defined.

(** X10. When no two rows of the link table share a pair, the rows
    [listByVariant] returns for one variant all belong to that variant and
    name pairwise distinct inventory items: each linked item occurs once. *)
Theorem listByVariant_distinct_items {L} (variantId : string)
    (w : World L) :
  unique_pairs (variant_inventory w) ->
  exists rows,
    listByVariant (One variantId) w = (Ok rows, w)
    /\ (forall row, In row rows ->
                    In row (variant_inventory w)
                    /\ pvi_variant_id row = variantId)
    /\ NoDup (map pvi_inventory_item_id rows).
Proof.
  intros Huniq. exists (links_of w variantId).
  split; [reflexivity |]. unfold links_of. split.
  - intros row Hin. apply filter_In in Hin as [Hin Hv]. simpl in Hv.
    rewrite orb_false_r in Hv. apply String.eqb_eq in Hv. auto.
  - unfold unique_pairs in Huniq.
    induction (variant_inventory w) as [| r rs IH]; simpl; [constructor |].
    simpl in Huniq. apply NoDup_cons in Huniq as [Hnotin Huniq].
    rewrite orb_false_r.
    destruct (String.eqb (pvi_variant_id r) variantId) eqn:Hr;
      [| apply IH; exact Huniq].
    simpl. apply NoDup_cons. split; [| apply IH; exact Huniq].
    intros Hin. apply Hnotin. apply list_elem_of_In in Hin.
    apply in_map_iff in Hin as [r' [Hitem Hin]].
    apply filter_In in Hin as [Hin Hv]. rewrite orb_false_r in Hv.
    apply String.eqb_eq in Hr, Hv.
    apply list_elem_of_In. apply in_map_iff. exists r'. split; [| exact Hin].
    unfold pair_of. congruence.
Qed.

Lemma listByVariant_distinct_items_witness :
  exists rows,
    listByVariant (One "V1") (Fixtures.bom_world 10)
    = (Ok rows, Fixtures.bom_world 10)
    /\ (forall row, In row rows ->
                    In row (variant_inventory (Fixtures.bom_world 10))
                    /\ pvi_variant_id row = "V1")
    /\ NoDup (map pvi_inventory_item_id rows).
Proof.
  apply (listByVariant_distinct_items "V1" (Fixtures.bom_world 10)).
  unfold unique_pairs. simpl. repeat constructor.
  - intros H. apply list_elem_of_In in H. simpl in H.
    destruct H as [H | []]. discriminate.
  - intros H. inversion H.
Defined.

(** ** Ledger Mode: rejections and fan-out *)

Lemma Promise_all_writes_ledger {L A B} (f : B -> L -> Result A * L)
    (xs : list B) (w : World L) :
  ledger (snd (Promise_all (map (fun x => ledger_write (f x)) xs) w))
  = foldl (fun l x => snd (f x l)) (ledger w) xs.
Proof.
  revert w. induction xs as [| x xs IH]; intros w; [reflexivity |].
  cbn [map Promise_all foldl]. unfold ledger_write at 1.
  destruct (f x (ledger w)) as [r l] eqn:Hf. cbn beta iota zeta.
  specialize (IH (set_ledger w l)).
  destruct (Promise_all (map (fun x0 => ledger_write (f x0)) xs)
              (set_ledger w l)) as [rs w2].
  simpl in *. exact IH.
Qed.

Lemma Promise_all_first_rejects {L A B} (f : B -> L -> Result A * L)
    (x : B) (xs : list B) (w : World L) (e : Error) :
  fst (f x (ledger w)) = Err e ->
  is_ok (fst (Promise_all (map (fun x => ledger_write (f x)) (x :: xs)) w))
  = false.
Proof.
  intros Hf. cbn [map Promise_all]. unfold ledger_write at 1.
  destruct (f x (ledger w)) as [r l]. simpl in Hf. subst r.
  cbn beta iota zeta.
  destruct (Promise_all _ (set_ledger w l)) as [[rs | e'] w2]; reflexivity.
Qed.

Lemma all_results_rejects {A B} (g : B -> Result A) (xs : list B) (x : B)
    (e : Error) :
  In x xs -> g x = Err e -> is_ok (all_results (map g xs)) = false.
Proof.
  induction xs as [| y ys IH]; simpl; [contradiction |].
  intros [-> | Hin] Hx.
  - rewrite Hx. destruct (all_results (map g ys)); reflexivity.
  - specialize (IH Hin Hx).
    destruct (g y), (all_results (map g ys)); simpl in *; congruence.
Qed.

(** X13. [confirmInventory] rejects with the [NOT_FOUND] error of the
    variant store for an unknown variant, in either mode; and in Ledger
    Mode, for a variant whose inventory is authoritative, it rejects as
    soon as the ledger rejects the question for one linked item, whatever
    the ledger answers for the others. *)
Theorem confirmInventory_rejections {L} (inv : IInventoryService L)
    (w : World L) (variantId : string) (quantity : Z) (sc : option string) :
  variantId <> "" ->
  (product_variants w !! variantId = None ->
   forall inventoryService_,
     confirmInventory inventoryService_ (Some variantId) quantity sc w
     = (Err (variant_not_found variantId), w))
  /\ (forall v link e,
        product_variants w !! variantId = Some v ->
        allow_backorder v = false ->
        manage_inventory v = true ->
        In link (links_of w variantId) ->
        ledger_answer inv w (confirm_locations w sc) quantity link
        = Err e ->
        is_ok (fst (confirmInventory (Some inv) (Some variantId) quantity
                      sc w)) = false).
Proof.
  intros Hid. split.
  - intros Hv inv'. unfold confirmInventory.
    apply String.eqb_neq in Hid. rewrite Hid. run. rewrite Hv. reflexivity.
  - intros v link e Hv Hb Hm Hin He.
    assert (Hlinks : links_of w variantId <> [])
      by (intros Hnil; rewrite Hnil in Hin; destruct Hin).
    rewrite (confirmInventory_ledger_eq inv w variantId v quantity sc
               Hid Hv Hb Hm Hlinks). simpl.
    pose proof (all_results_rejects
                  (ledger_answer inv w (confirm_locations w sc) quantity)
                  _ link e Hin He) as Hrej.
    destruct (all_results _); [discriminate | reflexivity].
Qed.

Lemma confirmInventory_rejections_witness :
  confirmInventory None (Some "V2") 1 None Fixtures.simple_world
  = (Err (variant_not_found "V2"), Fixtures.simple_world)
  /\ is_ok (fst (confirmInventory (Some Scenarios.rejecting) (Some "V1") 3
                   None (Fixtures.bom_world 10))) = false.
Proof.
  split.
  - apply (proj1 (confirmInventory_rejections
                    {| retrieveInventoryItem := fun _ _ => Ok tt;
                       ledgerConfirmInventory := fun _ _ _ _ => Ok true;
                       listReservationItems := fun _ _ => Ok ([], 0%nat);
                       listInventoryLevels := fun _ _ _ => Ok ([], 0%nat);
                       createReservationItem := fun _ l =>
                         (Err (TypeError "unused"), l);
                       updateReservationItem := fun _ _ l => (Ok tt, l);
                       deleteReservationItem := fun _ l => (Ok tt, l);
                       deleteReservationItemsByLineItem := fun _ l =>
                         (Ok tt, l) |}
                    Fixtures.simple_world "V2" 1 None ltac:(discriminate))).
    vm_compute. reflexivity.
  - apply (proj2 (confirmInventory_rejections Scenarios.rejecting
                    (Fixtures.bom_world 10) "V1" 3 None ltac:(discriminate))
             (Fixtures.variant false true 0) (Fixtures.link "V1" "I2" 1)
             (MedusaError NOT_FOUND "InventoryItem was not found")).
    + vm_compute. reflexivity.
    + reflexivity.
    + reflexivity.
    + right. left. reflexivity.
    + reflexivity.
Defined.

(** X19. In Ledger Mode, a rejected reservation request does not stop the
    later ones: for a variant whose listed link rows are not empty and a
    context that resolves to a location, the ledger state after
    [reserveQuantity] is the state reached by sending the request of
    every listed link row in turn, and when the ledger rejects the first
    request the call rejects. *)
Theorem reserveQuantity_attempts_every_request {L}
    (inv : IInventoryService L) (w : World L) (variantId : string)
    (quantity : Z) (context : ReserveQuantityContext) (l : string)
    (link : ProductVariantInventoryItem)
    (rest : list ProductVariantInventoryItem) :
  listByVariant (One variantId) w = (Ok (link :: rest), w) ->
  resolves_to w context l ->
  ledger (snd (reserveQuantity (Some inv) variantId quantity context w))
  = foldl
      (fun led k =>
         snd (createReservationItem inv
                (expected_request context l quantity k) led))
      (ledger w) (link :: rest)
  /\ (forall e,
        fst (createReservationItem inv
               (expected_request context l quantity link) (ledger w))
        = Err e ->
        is_ok (fst (reserveQuantity (Some inv) variantId quantity context
                      w)) = false).
Proof.
  rewrite listByVariant_One. intros [= Hlinks] Hres.
  assert (Hne : links_of w variantId <> []) by (rewrite Hlinks; discriminate).
  rewrite (reserveQuantity_ledger_eq inv w variantId quantity context Hne).
  rewrite (resolves_to_resolve_locationId w context l Hres), Hlinks.
  unfold create_all. unfold bind. rewrite map_map.
  pose proof (Promise_all_writes_ledger
                (fun k =>
                   createReservationItem inv
                     (reservation_input context (Some l) quantity k))
                (link :: rest) w) as Hled.
  pose proof (fun e =>
                Promise_all_first_rejects
                  (fun k =>
                     createReservationItem inv
                       (reservation_input context (Some l) quantity k))
                  link rest w e) as Hrej.
  destruct (Promise_all _ w) as [[rs | e'] w2]; simpl in *.
  - split; [exact Hled |]. intros e He. specialize (Hrej e He).
    discriminate.
  - split; [exact Hled |]. reflexivity.
Qed.

Lemma reserveQuantity_attempts_every_request_witness :
  length
    (Mock.calls
       (ledger
          (snd (reserveQuantity (Some Scenarios.rejecting) "V1" 3
                  (Fixtures.context (Some "loc-1") None)
                  (Fixtures.bom_world 10))))) = 2%nat
  /\ is_ok (fst (reserveQuantity (Some Scenarios.rejecting) "V1" 3
                   (Fixtures.context (Some "loc-1") None)
                   (Fixtures.bom_world 10))) = false.
Proof.
  destruct (reserveQuantity_attempts_every_request Scenarios.rejecting
              (Fixtures.bom_world 10) "V1" 3
              (Fixtures.context (Some "loc-1") None) "loc-1"
              (Fixtures.link "V1" "I1" 2) [Fixtures.link "V1" "I2" 1]
              eq_refl
              (resolves_by_location (Fixtures.bom_world 10)
                 (Fixtures.context (Some "loc-1") None) "loc-1" eq_refl))
    as [Hled Hrej].
  split.
  - rewrite Hled. reflexivity.
  - apply (Hrej (MedusaError NOT_FOUND "Item is not stocked at location")).
    reflexivity.
Defined.

(** X20. In Ledger Mode, [adjustReservationsQuantityByLineItem] rejects
    without writing to the ledger in three cases: the listing itself is
    rejected; the ledger reports a nonzero count but returns no row (a
    [TypeError] on [undefined]); the variant has no link to the inventory
    item of the targeted reservation ([NOT_FOUND], naming that item). *)
Theorem adjust_rejects_without_writing {L} (inv : IInventoryService L)
    (w : World L) (lineItemId variantId locationId : string)
    (quantity : Z) :
  (forall e,
      listReservationItems inv lineItemId (ledger w) = Err e ->
      adjustReservationsQuantityByLineItem (Some inv) lineItemId variantId
        locationId quantity w = (Err e, w))
  /\ (forall n,
        listReservationItems inv lineItemId (ledger w) = Ok ([], n) ->
        n <> 0%nat ->
        adjustReservationsQuantityByLineItem (Some inv) lineItemId
          variantId locationId quantity w
        = (Err (TypeError
                  "Cannot read properties of undefined (reading 'inventory_item_id')"),
           w))
  /\ (forall rs n r,
        listReservationItems inv lineItemId (ledger w) = Ok (rs, n) ->
        n <> 0%nat ->
        pick_reservation rs locationId quantity = Some r ->
        List.find (same_pair variantId (res_inventory_item_id r))
          (variant_inventory w) = None ->
        adjustReservationsQuantityByLineItem (Some inv) lineItemId
          variantId locationId quantity w
        = (Err (MedusaError NOT_FOUND
                  ("Inventory item with id " +:+ res_inventory_item_id r
                   +:+ " not found")), w)).
Proof.
  unfold adjustReservationsQuantityByLineItem. split; [| split].
  - intros e Hlist. run. rewrite Hlist. reflexivity.
  - intros n Hlist Hn. run. rewrite Hlist.
    destruct n; [congruence | reflexivity].
  - intros rs n r Hlist Hn Hpick Hlink. run. rewrite Hlist.
    destruct n; [congruence |]. simpl. rewrite Hpick. run.
    rewrite Hlink. reflexivity.
Qed.

Lemma adjust_rejects_without_writing_witness :
  adjustReservationsQuantityByLineItem (Some Mock.service) "line-1" "V1"
    "loc-1" 1 Scenarios.orphan_world
  = (Err (MedusaError NOT_FOUND "Inventory item with id I2 not found"),
     Scenarios.orphan_world)
  /\ is_ok (fst (adjustReservationsQuantityByLineItem
                   (Some Scenarios.rejecting) "line-1" "V1" "loc-1" 1
                   Scenarios.orphan_world)) = false.
Proof.
  split.
  - apply (proj2 (proj2 (adjust_rejects_without_writing Mock.service
                           Scenarios.orphan_world "line-1" "V1" "loc-1" 1))
             [Fixtures.reservation "R9" "line-1" "I2" "loc-1" 4 1] 1%nat
             (Fixtures.reservation "R9" "line-1" "I2" "loc-1" 4 1));
      [reflexivity | discriminate | reflexivity | reflexivity].
  - rewrite (proj1 (proj2 (adjust_rejects_without_writing
                             Scenarios.rejecting Scenarios.orphan_world
                             "line-1" "V1" "loc-1" 1))
               1%nat eq_refl ltac:(discriminate)).
    reflexivity.
Defined.



(** ** More on the validator *)

Lemma quantity_of_Map_bracket (m : gmap string ProductVariantInventoryItem)
    (k : string) :
  quantity_of (Map_bracket m k) = None.
Proof.
  unfold Map_bracket.
  destruct (String.eqb k "size"); [reflexivity |].
  destruct (String.eqb k "__proto__"); [reflexivity |].
  destruct (existsb _ _); reflexivity.
Qed.

(** The bracket read never yields a link row, so the comparison of
    quantities never decides. *)
Lemma level_rejected_eq (m : gmap string ProductVariantInventoryItem)
    (item : LineItem) (lvl : InventoryLevelDTO) :
  level_rejected m item lvl
  = negb (ToBoolean (Map_bracket m (lvl_inventory_item_id lvl))).
Proof.
  unfold level_rejected. rewrite quantity_of_Map_bracket. simpl.
  apply orb_false_r.
Qed.

Lemma existsb_pointwise {A} (f g : A -> bool) (l : list A) :
  (forall x, f x = g x) -> existsb f l = existsb g l.
Proof.
  intros H. induction l as [| a l IH]; simpl; [reflexivity |].
  rewrite H, IH. reflexivity.
Qed.

Lemma for_of_ok_inv {L A} (body : A -> M L unit) (xs : list A)
    (w : World L) :
  (forall x, reads (body x)) ->
  fst (for_of xs body w) = Ok tt ->
  forall x, In x xs -> fst (body x w) = Ok tt.
Proof.
  intros Hreads Hok x Hin.
  destruct (fst (body x w)) as [[] | e] eqn:Hx; [reflexivity |].
  pose proof (for_of_fails body (fun y w' => Hreads y w') xs w x Hin) as Hf.
  rewrite Hx, Hok in Hf. specialize (Hf eq_refl). discriminate.
Qed.

Lemma for_of_app {L A} (body : A -> M L unit) (xs ys : list A)
    (w : World L) :
  for_of (xs ++ ys) body w
  = bind (for_of xs body) (fun _ => for_of ys body) w.
Proof.
  revert w. induction xs as [| x xs IH]; intros w; simpl; [reflexivity |].
  unfold bind in *. destruct (body x w) as [[[] | e] w']; [apply IH |].
  reflexivity.
Qed.

Lemma for_of_map {L A B} (g : A -> B) (body : B -> M L unit) (xs : list A)
    (w : World L) :
  for_of (map g xs) body w = for_of xs (fun x => body (g x)) w.
Proof.
  revert w. induction xs as [| x xs IH]; intros w; simpl; [reflexivity |].
  unfold bind. destruct (body (g x) w) as [[[] | e] w']; [apply IH |].
  reflexivity.
Qed.

Lemma for_of_pointwise {L A} (body body' : A -> M L unit) (xs : list A)
    (w : World L) :
  (forall x w', body x w' = body' x w') ->
  for_of xs body w = for_of xs body' w.
Proof.
  intros H. revert w.
  induction xs as [| x xs IH]; intros w; simpl; [reflexivity |].
  unfold bind. rewrite H. destruct (body' x w) as [[[] | e] w']; [apply IH |].
  reflexivity.
Qed.

Lemma filter_map_comm {A B} (p : B -> bool) (g : A -> B) (xs : list A) :
  List.filter p (map g xs) = map g (List.filter (fun x => p (g x)) xs).
Proof.
  induction xs as [| x xs IH]; simpl; [reflexivity |].
  destruct (p (g x)); simpl; rewrite IH; reflexivity.
Qed.

(** X22. In Ledger Mode, [validateInventoryAtLocation] resolves exactly
    when, for every line item with a variant, the ledger returns its stock
    levels and the bracket read [pviMap[id]] is truthy for the inventory
    item of each returned level. Stocked quantities, link quantities and
    line item quantities do not enter the condition. *)
Theorem validate_resolves_iff {L} (inv : IInventoryService L)
    (items : list LineItem) (locationId : string) (w : World L) :
  fst (validateInventoryAtLocation (Some inv) items locationId w) = Ok tt
  <-> forall item,
        In item items ->
        truthy (li_variant_id item) = true ->
        exists lvls n,
          levels_of inv w locationId item = Ok (lvls, n)
          /\ forall lvl,
               In lvl lvls ->
               ToBoolean
                 (Map_bracket (pviMap_of w item)
                    (lvl_inventory_item_id lvl)) = true.
Proof.
  unfold validateInventoryAtLocation. split.
  - intros Hok item Hin Htruthy.
    pose proof (for_of_ok_inv (validate_item inv locationId) _ w
                  (fun x w' => validate_item_reads inv locationId x w')
                  Hok item) as Hitem.
    specialize (Hitem ltac:(apply filter_In; split; assumption)).
    rewrite validate_item_eq in Hitem. simpl in Hitem.
    destruct (levels_of inv w locationId item) as [[lvls n] | e];
      [| discriminate].
    exists lvls, n. split; [reflexivity |]. intros lvl Hlvl.
    destruct (existsb _ lvls) eqn:Hex; [discriminate |].
    destruct (ToBoolean (Map_bracket (pviMap_of w item)
                           (lvl_inventory_item_id lvl))) eqn:Hb;
      [reflexivity |].
    assert (Hyes : existsb
                     (level_rejected
                        (Map_new
                           (map (fun pvi => (pvi_inventory_item_id pvi, pvi))
                              (links_of w
                                 (default "" (li_variant_id item)))))
                        item) lvls = true).
    { apply existsb_exists. exists lvl. split; [exact Hlvl |].
      rewrite level_rejected_eq. fold (pviMap_of w item). rewrite Hb.
      reflexivity. }
    congruence.
  - intros Hall.
    apply (for_of_ok _ (validate_item_reads inv locationId)).
    intros item Hin. apply filter_In in Hin as [Hin Htruthy].
    destruct (Hall item Hin Htruthy) as [lvls [n [Hlvls Hb]]].
    rewrite validate_item_eq, Hlvls. simpl.
    destruct (existsb _ lvls) eqn:Hex; [| reflexivity].
    apply existsb_exists in Hex as [lvl [Hlvl Hrej]].
    rewrite level_rejected_eq in Hrej. fold (pviMap_of w item) in Hrej.
    rewrite (Hb lvl Hlvl) in Hrej. discriminate.
Qed.

Lemma validate_resolves_iff_witness :
  fst (validateInventoryAtLocation (Some Mock.service)
         [Fixtures.tshirt; Scenarios.gift_card] "loc-1"
         Fixtures.missing_world) = Ok tt.
Proof.
  apply (proj2 (validate_resolves_iff Mock.service
                  [Fixtures.tshirt; Scenarios.gift_card] "loc-1"
                  Fixtures.missing_world)).
  intros item [<- | [<- | []]] Htruthy; [| discriminate].
  exists [], 0%nat. split; [reflexivity |]. intros lvl [].
Defined.

(** X23. Validating a list of line items made of two parts is validating
    the first part and, when that resolves, the second: the call rejects
    with the error of the first part if there is one, else with that of
    the second. *)
Theorem validate_app {L} (inv : option (IInventoryService L))
    (xs ys : list LineItem) (locationId : string) (w : World L) :
  validateInventoryAtLocation inv (xs ++ ys) locationId w
  = match validateInventoryAtLocation inv xs locationId w with
    | (Ok _, _) => validateInventoryAtLocation inv ys locationId w
    | (Err e, _) => (Err e, w)
    end.
Proof.
  destruct inv as [i |]; [| reflexivity].
  unfold validateInventoryAtLocation. rewrite List.filter_app, for_of_app.
  unfold bind.
  pose proof (for_of_reads (validate_item i locationId)
                (validate_item_reads i locationId)
                (List.filter (fun item => truthy (li_variant_id item)) xs) w)
    as Hw.
  destruct (for_of _ (validate_item i locationId) w) as [[[] | e] w'];
    simpl in Hw; subst w'; reflexivity.
Qed.

(** X24. The quantities of the line items play no part in
    [validateInventoryAtLocation]: replacing the quantity of every line
    item by any other changes neither the outcome nor the world. *)
Theorem validate_ignores_quantities {L} (inv : option (IInventoryService L))
    (f : LineItem -> Z) (items : list LineItem) (locationId : string)
    (w : World L) :
  validateInventoryAtLocation inv
    (map (fun item => with_quantity (f item) item) items) locationId w
  = validateInventoryAtLocation inv items locationId w.
Proof.
  destruct inv as [i |]; [| reflexivity].
  unfold validateInventoryAtLocation.
  rewrite filter_map_comm, for_of_map. simpl.
  apply for_of_pointwise. intros item w'.
  rewrite !validate_item_eq. unfold levels_of. simpl.
  destruct (listInventoryLevels i _ locationId (ledger w'))
    as [[lvls n] | e]; [| reflexivity].
  rewrite (existsb_pointwise
             (level_rejected _ (with_quantity (f item) item))
             (level_rejected
                (Map_new
                   (map (fun pvi => (pvi_inventory_item_id pvi, pvi))
                      (links_of w' (default "" (li_variant_id item)))))
                item));
    [reflexivity |].
  intros lvl. rewrite !level_rejected_eq. reflexivity.
Qed.

(** ** The read accessors of the link table *)

(** X26. [listByItem] returns the rows of the link table whose inventory
    item is among the requested ones; when no two rows share a pair, the
    rows returned for a single inventory item name pairwise distinct
    variants. *)
Theorem listByItem_distinct_variants {L} (itemIds : list string)
    (w : World L) :
  exists rows,
    listByItem itemIds w = (Ok rows, w)
    /\ (forall row, In row rows <->
                    In row (variant_inventory w)
                    /\ In (pvi_inventory_item_id row) itemIds)
    /\ (forall itemId,
          itemIds = [itemId] ->
          unique_pairs (variant_inventory w) ->
          NoDup (map pvi_variant_id rows)).
Proof.
  eexists. split; [reflexivity |]. split.
  - intros row. rewrite filter_In, existsb_exists. split.
    + intros [Hin [x [Hx Heq]]]. apply String.eqb_eq in Heq. subst x. auto.
    + intros [Hin Hid]. split; [exact Hin |].
      exists (pvi_inventory_item_id row). split; [exact Hid |].
      apply String.eqb_refl.
  - intros itemId -> Huniq. unfold unique_pairs in Huniq.
    induction (variant_inventory w) as [| r rs IH]; simpl; [constructor |].
    simpl in Huniq. apply NoDup_cons in Huniq as [Hnotin Huniq].
    rewrite orb_false_r.
    destruct (String.eqb (pvi_inventory_item_id r) itemId) eqn:Hr;
      [| apply IH; exact Huniq].
    simpl. apply NoDup_cons. split; [| apply IH; exact Huniq].
    intros Hin. apply Hnotin. apply list_elem_of_In in Hin.
    apply in_map_iff in Hin as [r' [Hvar Hin]].
    apply filter_In in Hin as [Hin Hi]. simpl in Hi.
    rewrite orb_false_r in Hi.
    apply String.eqb_eq in Hr, Hi.
    apply list_elem_of_In. apply in_map_iff. exists r'. split; [| exact Hin].
    unfold pair_of. congruence.
Qed.

Lemma listByItem_distinct_variants_witness :
  exists rows,
    listByItem ["I1"] (Fixtures.bom_world 10)
    = (Ok rows, Fixtures.bom_world 10)
    /\ NoDup (map pvi_variant_id rows).
Proof.
  destruct (listByItem_distinct_variants ["I1"] (Fixtures.bom_world 10))
    as [rows [Heq [_ Hnodup]]].
  exists rows. split; [exact Heq |].
  apply (Hnodup "I1" eq_refl).
  unfold unique_pairs. simpl. repeat constructor.
  - intros H. apply list_elem_of_In in H. simpl in H.
    destruct H as [H | []]. discriminate.
  - intros H. inversion H.
Defined.
